(** * Farmacia Nieto inventory manager

    A shallow embedding of [src/inventory_manager.py] and the properties of
    its object model: stock updates, expiration predicates, search, the
    transaction log and JSON persistence.

    Conventions of the embedding.
    - A Python [str] is a [string]; its characters are read as the code
      points U+0000..U+00FF.
    - A Python [int] is a [Z]; a [float] is a primitive [float].
    - A Python [dict] with string keys is an association list in insertion
      order ([dict V]); it denotes a dictionary when its keys are distinct.
    - [datetime.now()] is an input: every operation that reads the clock
      takes the reading as its argument [now].
    - Console output ([print]) is not part of the model.
    - [Product] objects are held by value: the manager is the only owner of
      the products in its mapping. *)

From Stdlib Require Import ZArith List String Ascii Bool Lia PrimFloat.
Import ListNotations.
Local Open Scope string_scope.
Local Open Scope list_scope.
Local Open Scope Z_scope.

(** ** Python dictionaries with string keys *)

Definition dict (V : Type) : Type := list (string * V).

(** [d.get(k)] *)
Fixpoint dict_get {V : Type} (k : string) (d : dict V) : option V :=
  match d with
  | [] => None
  | (k', v) :: r => if String.eqb k k' then Some v else dict_get k r
  end.

(** [k in d] *)
Definition dict_contains {V : Type} (k : string) (d : dict V) : bool :=
  match dict_get k d with
  | Some _ => true
  | None => false
  end.

(** [d[k] = v]: an existing key keeps its position, a new key goes last. *)
Fixpoint dict_set {V : Type} (k : string) (v : V) (d : dict V) : dict V :=
  match d with
  | [] => [(k, v)]
  | (k', v') :: r =>
      if String.eqb k k' then (k', v) :: r else (k', v') :: dict_set k v r
  end.

(** [del d[k]] *)
Fixpoint dict_del {V : Type} (k : string) (d : dict V) : dict V :=
  match d with
  | [] => []
  | (k', v') :: r =>
      if String.eqb k k' then r else (k', v') :: dict_del k r
  end.

(** [d.keys()] and [d.values()], in insertion order. *)
Definition dict_keys {V : Type} (d : dict V) : list string := map fst d.
Definition dict_values {V : Type} (d : dict V) : list V := map snd d.

(** ** JSON values

    What [json.load] returns and [json.dump] accepts.  [json.dump] followed
    by [json.load] gives back the value it was given, so a stored file is
    modelled by the value itself. *)

Inductive number : Type :=
| NInt (z : Z)
| NFloat (f : float).

#[warnings="-register-all"]
Inductive json : Type :=
| JNull
| JBool (b : bool)
| JNum (n : number)
| JStr (s : string)
| JList (l : list json)
| JObj (o : list (string * json)).

(** Python truth value of a JSON value ([if v:]). *)
Definition truthy (v : json) : bool :=
  match v with
  | JNull => false
  | JBool b => b
  | JNum (NInt z) => negb (z =? 0)
  | JNum (NFloat f) => negb (PrimFloat.eqb f 0%float)
  | JStr s => negb (String.eqb s "")
  | JList l => match l with [] => false | _ => true end
  | JObj o => match o with [] => false | _ => true end
  end.

(** ** Exceptions and outcomes *)

Inductive exn : Type :=
| FileNotFoundError
| JSONDecodeError
| AttributeError
| TypeError
| KeyError
| ValueError.

(** The outcome of a fallible computation.  [Unmodelled] marks the runs the
    typed embedding does not follow: those where Python would go on with a
    value whose type is not the annotated one, and the inputs on which the
    behaviour of [datetime.fromisoformat] differs between Python versions. *)
Inductive outcome (A : Type) : Type :=
| Ok (a : A)
| Raise (e : exn)
| Unmodelled.
Arguments Ok {A} a.
Arguments Raise {A} e.
Arguments Unmodelled {A}.

Definition obind {A B : Type} (m : outcome A) (f : A -> outcome B) : outcome B :=
  match m with
  | Ok a => f a
  | Raise e => Raise e
  | Unmodelled => Unmodelled
  end.

Notation "x <- m ;; k" := (obind m (fun x => k))
  (at level 61, m at next level, right associativity).

(** ** [datetime] (the standard library's naive datetime)

    A naive [datetime] holds its seven fields; the constructor accepts them
    when [valid_datetime] holds. *)

Record datetime : Type := mkDatetime {
  year : Z;
  month : Z;
  day : Z;
  hour : Z;
  minute : Z;
  second : Z;
  microsecond : Z
}.

Definition is_leap (y : Z) : bool :=
  (y mod 4 =? 0) && (negb (y mod 100 =? 0) || (y mod 400 =? 0)).

Definition DAYS_IN_MONTH (m : Z) : Z :=
  match m with
  | 1 => 31 | 2 => 28 | 3 => 31 | 4 => 30 | 5 => 31 | 6 => 30
  | 7 => 31 | 8 => 31 | 9 => 30 | 10 => 31 | 11 => 30 | 12 => 31
  | _ => -1
  end.

Definition DAYS_BEFORE_MONTH (m : Z) : Z :=
  match m with
  | 1 => 0 | 2 => 31 | 3 => 59 | 4 => 90 | 5 => 120 | 6 => 151
  | 7 => 181 | 8 => 212 | 9 => 243 | 10 => 273 | 11 => 304 | 12 => 334
  | _ => -1
  end.

Definition days_in_month (y m : Z) : Z :=
  if (m =? 2) && is_leap y then 29 else DAYS_IN_MONTH m.

Definition days_before_year (y : Z) : Z :=
  let y' := y - 1 in y' * 365 + y' / 4 - y' / 100 + y' / 400.

Definition days_before_month (y m : Z) : Z :=
  DAYS_BEFORE_MONTH m + (if (2 <? m) && is_leap y then 1 else 0).

Definition ymd2ord (y m d : Z) : Z :=
  days_before_year y + days_before_month y m + d.

Definition valid_datetime (d : datetime) : bool :=
  (1 <=? year d) && (year d <=? 9999) &&
  (1 <=? month d) && (month d <=? 12) &&
  (1 <=? day d) && (day d <=? days_in_month (year d) (month d)) &&
  (0 <=? hour d) && (hour d <? 24) &&
  (0 <=? minute d) && (minute d <? 60) &&
  (0 <=? second d) && (second d <? 60) &&
  (0 <=? microsecond d) && (microsecond d <? 1000000).

(** [d.toordinal()] *)
Definition toordinal (d : datetime) : Z :=
  ymd2ord (year d) (month d) (day d).

(** Comparison of naive datetimes: the field tuples, lexicographically. *)
Fixpoint lex_compare (a b : list Z) : comparison :=
  match a, b with
  | [], [] => Eq
  | [], _ :: _ => Lt
  | _ :: _, [] => Gt
  | x :: a', y :: b' =>
      match x ?= y with
      | Eq => lex_compare a' b'
      | c => c
      end
  end.

Definition datetime_fields (d : datetime) : list Z :=
  [year d; month d; day d; hour d; minute d; second d; microsecond d].

(** [a > b] *)
Definition datetime_gt (a b : datetime) : bool :=
  match lex_compare (datetime_fields a) (datetime_fields b) with
  | Gt => true
  | _ => false
  end.

(** [timedelta]: normalised to [0 <= seconds < 86400] and
    [0 <= microseconds < 1000000]; [days] carries the sign. *)
Record timedelta : Type := mkTimedelta {
  days : Z;
  seconds : Z;
  microseconds : Z
}.

Definition US_PER_DAY : Z := 86400000000.

Definition timedelta_of (d s us : Z) : timedelta :=
  let total := (d * 86400 + s) * 1000000 + us in
  {| days := total / US_PER_DAY;
     seconds := (total mod US_PER_DAY) / 1000000;
     microseconds := total mod 1000000 |}.

(** [a - b] for naive datetimes. *)
Definition datetime_sub (a b : datetime) : timedelta :=
  let secs1 := second a + minute a * 60 + hour a * 3600 in
  let secs2 := second b + minute b * 60 + hour b * 3600 in
  timedelta_of (toordinal a - toordinal b) (secs1 - secs2)
               (microsecond a - microsecond b).

(** The instant of a datetime, in microseconds since the start of day 0 of
    the proleptic Gregorian ordinal. Used to state properties only. *)
Definition instant (d : datetime) : Z :=
  ((toordinal d * 24 + hour d) * 60 + minute d) * 60000000
  + second d * 1000000 + microsecond d.

(** *** [isoformat] and [fromisoformat] *)

Definition digit (n : Z) : ascii := ascii_of_nat (48 + Z.to_nat n).

Definition digit_value (c : ascii) : option Z :=
  let n := Z.of_nat (nat_of_ascii c) in
  if (48 <=? n) && (n <=? 57) then Some (n - 48) else None.

(** ["%0wd" % n] in front of [rest], for [0 <= n < 10^w] (every field of a
    datetime is in that range for its width). *)
Fixpoint zfill (w : nat) (n : Z) (rest : string) : string :=
  match w with
  | O => rest
  | S w' => zfill w' (n / 10) (String (digit (n mod 10)) rest)
  end.

(** [d.isoformat()] for a naive datetime: [YYYY-MM-DDTHH:MM:SS], followed
    by [.ffffff] when the microsecond is not 0. *)
Definition isoformat (d : datetime) : string :=
  zfill 4 (year d) (String "-" (zfill 2 (month d) (String "-"
  (zfill 2 (day d) (String "T" (zfill 2 (hour d) (String ":"
  (zfill 2 (minute d) (String ":" (zfill 2 (second d)
  (if microsecond d =? 0 then ""
   else String "." (zfill 6 (microsecond d) "")))))))))))).

(** Reads exactly [w] decimal digits. *)
Fixpoint read_digits (w : nat) (s : string) (acc : Z) : option (Z * string) :=
  match w with
  | O => Some (acc, s)
  | S w' =>
      match s with
      | EmptyString => None
      | String c s' =>
          match digit_value c with
          | Some v => read_digits w' s' (10 * acc + v)
          | None => None
          end
      end
  end.

Definition expect (c : ascii) (s : string) : option string :=
  match s with
  | EmptyString => None
  | String c' s' => if Ascii.eqb c c' then Some s' else None
  end.

Definition opt_bind {A B : Type} (m : option A) (f : A -> option B) : option B :=
  match m with
  | Some a => f a
  | None => None
  end.

(** The two shapes [isoformat] produces, read back into fields. *)
Definition parse_isoformat (s : string) : option datetime :=
  opt_bind (read_digits 4 s 0) (fun '(y, s) =>
  opt_bind (expect "-" s) (fun s =>
  opt_bind (read_digits 2 s 0) (fun '(mo, s) =>
  opt_bind (expect "-" s) (fun s =>
  opt_bind (read_digits 2 s 0) (fun '(d, s) =>
  opt_bind (expect "T" s) (fun s =>
  opt_bind (read_digits 2 s 0) (fun '(h, s) =>
  opt_bind (expect ":" s) (fun s =>
  opt_bind (read_digits 2 s 0) (fun '(mi, s) =>
  opt_bind (expect ":" s) (fun s =>
  opt_bind (read_digits 2 s 0) (fun '(se, s) =>
  match s with
  | EmptyString => Some (mkDatetime y mo d h mi se 0)
  | _ =>
      opt_bind (expect "." s) (fun s =>
      opt_bind (read_digits 6 s 0) (fun '(us, s) =>
      match s with
      | EmptyString => Some (mkDatetime y mo d h mi se us)
      | _ => None
      end))
  end))))))))))).

(** [datetime.fromisoformat(s)] on the strings this development reads: the
    output of [isoformat] on a valid naive datetime is read back, and a
    string shorter than 7 characters raises [ValueError].  The other strings
    are not followed and are left [Unmodelled]: among them are forms that
    give a datetime (a date alone, another separator, an offset, which makes
    the datetime aware), forms that raise [ValueError], and forms on which
    the versions of Python differ. *)
Definition fromisoformat (s : string) : outcome datetime :=
  match parse_isoformat s with
  | Some d => if valid_datetime d then Ok d else Unmodelled
  | None => if (String.length s <? 7)%nat then Raise ValueError else Unmodelled
  end.

(** ** Strings: [str.lower] and the [in] operator *)

(** [c.lower()] for a code point below U+0100: A-Z, À-Ö and Ø-Þ have a
    lowercase form, 32 places further. *)
Definition lower_char (c : ascii) : ascii :=
  let n := nat_of_ascii c in
  if ((65 <=? n) && (n <=? 90) || (192 <=? n) && (n <=? 214)
      || (216 <=? n) && (n <=? 222))%nat
  then ascii_of_nat (n + 32)
  else c.

Fixpoint lower (s : string) : string :=
  match s with
  | EmptyString => EmptyString
  | String c s' => String (lower_char c) (lower s')
  end.

(** [q in s] on strings: [q] occurs in [s] as a contiguous substring. *)
Fixpoint str_in (q s : string) : bool :=
  if String.prefix q s then true
  else match s with
       | EmptyString => false
       | String _ s' => str_in q s'
       end.

(** ** [ProductCategory] *)

Inductive ProductCategory : Type :=
| ORTOMOLECULAR
| DERMOCOSMETICA
| HOMEOPATIA
| ALOPATICA
| FITOTERAPIA
| FLORALES
| PROBIOTICOS
| HORMONAS
| MATERIA_PRIMA
| OTROS.

(** [category.value] *)
Definition value (c : ProductCategory) : string :=
  match c with
  | ORTOMOLECULAR => "ortomolecular"
  | DERMOCOSMETICA => "dermocosmetica"
  | HOMEOPATIA => "homeopatia"
  | ALOPATICA => "alopatica"
  | FITOTERAPIA => "fitoterapia"
  | FLORALES => "florales"
  | PROBIOTICOS => "probioticos"
  | HORMONAS => "hormonas"
  | MATERIA_PRIMA => "materia_prima"
  | OTROS => "otros"
  end.

Definition categories : list ProductCategory :=
  [ORTOMOLECULAR; DERMOCOSMETICA; HOMEOPATIA; ALOPATICA; FITOTERAPIA;
   FLORALES; PROBIOTICOS; HORMONAS; MATERIA_PRIMA; OTROS].

(** [ProductCategory(v)]: the member whose value is [v]; [ValueError] when
    there is none. *)
Definition ProductCategory_of (v : json) : outcome ProductCategory :=
  match v with
  | JStr s =>
      match find (fun c => String.eqb (value c) s) categories with
      | Some c => Ok c
      | None => Raise ValueError
      end
  | _ => Raise ValueError
  end.

(** ** [Product] *)

Record Product : Type := mkProduct {
  id : string;
  name : string;
  category : ProductCategory;
  description : string;
  stock_quantity : Z;
  min_stock : Z;
  unit_price : number;
  expiration_date : option datetime;
  batch_number : option string;
  supplier : option string;
  storage_location : option string
}.

(** [product.stock_quantity = q] *)
Definition set_stock_quantity (q : Z) (p : Product) : Product :=
  {| id := id p;
     name := name p;
     category := category p;
     description := description p;
     stock_quantity := q;
     min_stock := min_stock p;
     unit_price := unit_price p;
     expiration_date := expiration_date p;
     batch_number := batch_number p;
     supplier := supplier p;
     storage_location := storage_location p |}.

Definition is_low_stock (self : Product) : bool :=
  stock_quantity self <=? min_stock self.

(** A [datetime] is always true as a condition, so [not expiration_date]
    holds for [None] only. *)
Definition is_expired (now : datetime) (self : Product) : bool :=
  match expiration_date self with
  | None => false
  | Some e => datetime_gt now e
  end.

Definition days_until_expiration (now : datetime) (self : Product) : option Z :=
  match expiration_date self with
  | None => None
  | Some e => let delta := datetime_sub e now in Some (days delta)
  end.

(** [days_threshold] defaults to 30 in the source. *)
Definition is_near_expiration (now : datetime) (self : Product)
    (days_threshold : Z) : bool :=
  match days_until_expiration now self with
  | None => false
  | Some d => (0 <? d) && (d <=? days_threshold)
  end.

Definition json_of_opt_str (o : option string) : json :=
  match o with
  | Some s => JStr s
  | None => JNull
  end.

(** [to_dict]: [asdict] lists the fields in declaration order; the
    category becomes its value and a set expiration date its ISO string. *)
Definition to_dict (self : Product) : json :=
  JObj
    [("id", JStr (id self));
     ("name", JStr (name self));
     ("category", JStr (value (category self)));
     ("description", JStr (description self));
     ("stock_quantity", JNum (NInt (stock_quantity self)));
     ("min_stock", JNum (NInt (min_stock self)));
     ("unit_price", JNum (unit_price self));
     ("expiration_date",
        match expiration_date self with
        | Some e => JStr (isoformat e)
        | None => JNull
        end);
     ("batch_number", json_of_opt_str (batch_number self));
     ("supplier", json_of_opt_str (supplier self));
     ("storage_location", json_of_opt_str (storage_location self))].

(** ** [InventoryManager] *)

Record InventoryManager : Type := mkManager {
  products : dict Product;
  transactions : list json
}.

(** [InventoryManager()] *)
Definition init : InventoryManager :=
  {| products := []; transactions := [] |}.

(** [reason] defaults to the empty string in the source. *)
Definition _log_transaction (now : datetime) (action product_id : string)
    (quantity : Z) (reason : string) (self : InventoryManager)
    : InventoryManager :=
  let transaction :=
    JObj [("timestamp", JStr (isoformat now));
          ("action", JStr action);
          ("product_id", JStr product_id);
          ("quantity", JNum (NInt quantity));
          ("reason", JStr reason)] in
  {| products := products self;
     transactions := transactions self ++ [transaction] |}.

Definition add_product (now : datetime) (product : Product)
    (self : InventoryManager) : bool * InventoryManager :=
  if dict_contains (id product) (products self) then (false, self)
  else
    let self1 := {| products := dict_set (id product) product (products self);
                    transactions := transactions self |} in
    (true, _log_transaction now "ADD" (id product) (stock_quantity product) ""
             self1).

Definition remove_product (now : datetime) (product_id : string)
    (self : InventoryManager) : bool * InventoryManager :=
  if negb (dict_contains product_id (products self)) then (false, self)
  else
    let self1 := {| products := dict_del product_id (products self);
                    transactions := transactions self |} in
    (true, _log_transaction now "REMOVE" product_id 0 "" self1).

(** [product_id not in self.products] is [dict_get] finding nothing.  The
    product is changed in place: it keeps its key and its position. *)
Definition update_stock (now : datetime) (product_id : string)
    (quantity_change : Z) (reason : string) (self : InventoryManager)
    : bool * InventoryManager :=
  match dict_get product_id (products self) with
  | None => (false, self)
  | Some product =>
      let new_quantity := stock_quantity product + quantity_change in
      if new_quantity <? 0 then (false, self)
      else
        let self1 :=
          {| products := dict_set product_id
                           (set_stock_quantity new_quantity product)
                           (products self);
             transactions := transactions self |} in
        (true, _log_transaction now "UPDATE" product_id quantity_change
                 reason self1)
  end.

Definition get_product (product_id : string) (self : InventoryManager)
    : option Product :=
  dict_get product_id (products self).

Definition search_products (query : string) (self : InventoryManager)
    : list Product :=
  let query_lower := lower query in
  filter (fun product =>
            str_in query_lower (lower (name product))
            || str_in query_lower (lower (description product)))
         (dict_values (products self)).

Definition get_low_stock_products (self : InventoryManager) : list Product :=
  filter is_low_stock (dict_values (products self)).

Definition get_expired_products (now : datetime) (self : InventoryManager)
    : list Product :=
  filter (is_expired now) (dict_values (products self)).

Definition get_near_expiration_products (now : datetime)
    (days_threshold : Z) (self : InventoryManager) : list Product :=
  filter (fun product => is_near_expiration now product days_threshold)
         (dict_values (products self)).

(** ** Persistence *)

(** A file holds a JSON document or something [json.load] refuses. *)
Inductive file : Type :=
| Document (data : json)
| NotJson.

(** The files by path; [None] where there is no file. *)
Definition filesystem : Type := string -> option file.

Definition write_file (fs : filesystem) (filename : string) (f : file)
    : filesystem :=
  fun path => if String.eqb path filename then Some f else fs path.

(** [open(filename, 'r')] then [json.load(f)] *)
Definition json_load (fs : filesystem) (filename : string) : outcome json :=
  match fs filename with
  | None => Raise FileNotFoundError
  | Some NotJson => Raise JSONDecodeError
  | Some (Document data) => Ok data
  end.

(** Writing the file is taken to succeed. *)
Definition save_to_file (fs : filesystem) (filename : string)
    (self : InventoryManager) : filesystem :=
  let data :=
    JObj [("products", JList (map to_dict (dict_values (products self))));
          ("transactions", JList (transactions self))] in
  write_file fs filename (Document data).

(** [data.get(key, default)]: only a dictionary has the method. *)
Definition json_get (data : json) (key : string) (default : json)
    : outcome json :=
  match data with
  | JObj o =>
      match dict_get key o with
      | Some v => Ok v
      | None => Ok default
      end
  | _ => Raise AttributeError
  end.

(** [data[key]]: [KeyError] on a dictionary without the key, [TypeError] on
    the other JSON values (a string key is no index of a list or a string). *)
Definition json_subscript (data : json) (key : string) : outcome json :=
  match data with
  | JObj o =>
      match dict_get key o with
      | Some v => Ok v
      | None => Raise KeyError
      end
  | _ => Raise TypeError
  end.

Fixpoint chars (s : string) : list json :=
  match s with
  | EmptyString => []
  | String c s' => JStr (String c EmptyString) :: chars s'
  end.

(** [for x in v]: the items of a list, the keys of a dictionary, the
    characters of a string; the other values are not iterable. *)
Definition json_iter (v : json) : outcome (list json) :=
  match v with
  | JList l => Ok l
  | JObj o => Ok (map JStr (dict_keys o))
  | JStr s => Ok (chars s)
  | _ => Raise TypeError
  end.

(** The values [product_data] holds while [load_from_file] rewrites it. *)
Inductive pyval : Type :=
| PJson (j : json)
| PCategory (c : ProductCategory)
| PDatetime (d : datetime).

Definition py_truthy (v : pyval) : bool :=
  match v with
  | PJson j => truthy j
  | PCategory _ => true
  | PDatetime _ => true
  end.

Definition field_names : list string :=
  ["id"; "name"; "category"; "description"; "stock_quantity"; "min_stock";
   "unit_price"; "expiration_date"; "batch_number"; "supplier";
   "storage_location"].

(** The fields without a default. *)
Definition required_fields : list string :=
  ["id"; "name"; "category"; "description"; "stock_quantity"; "min_stock";
   "unit_price"].

Definition as_str (v : option pyval) : outcome string :=
  match v with
  | Some (PJson (JStr s)) => Ok s
  | _ => Unmodelled
  end.

Definition as_int (v : option pyval) : outcome Z :=
  match v with
  | Some (PJson (JNum (NInt z))) => Ok z
  | _ => Unmodelled
  end.

Definition as_number (v : option pyval) : outcome number :=
  match v with
  | Some (PJson (JNum n)) => Ok n
  | _ => Unmodelled
  end.

Definition as_category (v : option pyval) : outcome ProductCategory :=
  match v with
  | Some (PCategory c) => Ok c
  | _ => Unmodelled
  end.

Definition as_opt_datetime (v : option pyval) : outcome (option datetime) :=
  match v with
  | None => Ok None
  | Some (PJson JNull) => Ok None
  | Some (PDatetime d) => Ok (Some d)
  | _ => Unmodelled
  end.

Definition as_opt_str (v : option pyval) : outcome (option string) :=
  match v with
  | None => Ok None
  | Some (PJson JNull) => Ok None
  | Some (PJson (JStr s)) => Ok (Some s)
  | _ => Unmodelled
  end.

(** The constructor [Product] called with the keywords [kw]: [TypeError] on a keyword that is no field and on a
    missing field without a default.  The dataclass checks no types; a run
    that would store a value of another type than the annotated one is
    [Unmodelled]. *)
Definition new_Product (kw : dict pyval) : outcome Product :=
  if negb (forallb (fun k => existsb (String.eqb k) field_names) (dict_keys kw))
  then Raise TypeError
  else if negb (forallb (fun k => dict_contains k kw) required_fields)
  then Raise TypeError
  else
    id_ <- as_str (dict_get "id" kw) ;;
    name_ <- as_str (dict_get "name" kw) ;;
    category_ <- as_category (dict_get "category" kw) ;;
    description_ <- as_str (dict_get "description" kw) ;;
    stock_quantity_ <- as_int (dict_get "stock_quantity" kw) ;;
    min_stock_ <- as_int (dict_get "min_stock" kw) ;;
    unit_price_ <- as_number (dict_get "unit_price" kw) ;;
    expiration_date_ <- as_opt_datetime (dict_get "expiration_date" kw) ;;
    batch_number_ <- as_opt_str (dict_get "batch_number" kw) ;;
    supplier_ <- as_opt_str (dict_get "supplier" kw) ;;
    storage_location_ <- as_opt_str (dict_get "storage_location" kw) ;;
    Ok (mkProduct id_ name_ category_ description_ stock_quantity_ min_stock_
          unit_price_ expiration_date_ batch_number_ supplier_
          storage_location_).

(** [datetime.fromisoformat(v)]: [TypeError] unless [v] is a string. *)
Definition fromisoformat_arg (v : pyval) : outcome datetime :=
  match v with
  | PJson (JStr s) => fromisoformat s
  | _ => Raise TypeError
  end.

(** The conversions of the loop of [load_from_file] and the construction
    of the product. *)
Definition load_product (product_data : json) : outcome Product :=
  tag <- json_subscript product_data "category" ;;
  c <- ProductCategory_of tag ;;
  match product_data with
  | JObj o =>
      let pd := map (fun kv => (fst kv, PJson (snd kv))) o in
      let pd := dict_set "category" (PCategory c) pd in
      pd <- match dict_get "expiration_date" pd with
            | Some e =>
                if py_truthy e
                then d <- fromisoformat_arg e ;;
                     Ok (dict_set "expiration_date" (PDatetime d) pd)
                else Ok pd
            | None => Ok pd
            end ;;
      new_Product pd
  | _ => Raise TypeError
  end.

(** Typed reading of [self.transactions = v]: the field is a list. *)
Definition as_list (v : json) : outcome (list json) :=
  match v with
  | JList l => Ok l
  | _ => Unmodelled
  end.

(** *** The body of [load_from_file]: state and exceptions *)

Definition M (A : Type) : Type :=
  InventoryManager -> outcome A * InventoryManager.

Definition mret {A : Type} (a : A) : M A := fun self => (Ok a, self).

Definition mbind {A B : Type} (m : M A) (f : A -> M B) : M B :=
  fun self =>
    match m self with
    | (Ok a, self') => f a self'
    | (Raise e, self') => (Raise e, self')
    | (Unmodelled, self') => (Unmodelled, self')
    end.

Definition lift {A : Type} (o : outcome A) : M A := fun self => (o, self).

Definition get_products : M (dict Product) :=
  fun self => (Ok (products self), self).

Definition set_products (ps : dict Product) : M unit :=
  fun self => (Ok tt, {| products := ps; transactions := transactions self |}).

Definition set_transactions (ts : list json) : M unit :=
  fun self => (Ok tt, {| products := products self; transactions := ts |}).

Fixpoint for_each {A : Type} (l : list A) (body : A -> M unit) : M unit :=
  match l with
  | [] => mret tt
  | x :: r => mbind (body x) (fun _ => for_each r body)
  end.

(** [try: m except e: handler e] *)
Definition try_except {A : Type} (m : M A) (handler : exn -> M A) : M A :=
  fun self =>
    match m self with
    | (Raise e, self') => handler e self'
    | r => r
    end.

Notation "x <~ m ;; k" := (mbind m (fun x => k))
  (at level 61, m at next level, right associativity).
Notation "m ;;; k" := (mbind m (fun _ => k))
  (at level 61, right associativity).

(** The body of the loop of [load_from_file]. *)
Definition load_item (product_data : json) : M unit :=
  product <~ lift (load_product product_data) ;;
  ps <~ get_products ;;
  set_products (dict_set (id product) product ps).

Definition load_from_file (fs : filesystem) (filename : string) : M bool :=
  try_except
    (data <~ lift (json_load fs filename) ;;
     set_products [] ;;;
     items <~ lift (l <- json_get data "products" (JList []) ;; json_iter l) ;;
     for_each items load_item ;;;
     ts <~ lift (v <- json_get data "transactions" (JList []) ;; as_list v) ;;
     set_transactions ts ;;;
     mret true)
    (fun e =>
       match e with
       | FileNotFoundError => mret false
       | _ => mret false
       end).

(** ** Vocabulary of the properties *)

(** A field of a logged transaction. *)
Definition txn_field (key : string) (t : json) : option json :=
  match t with
  | JObj o => dict_get key o
  | _ => None
  end.

(** [l1] is an initial segment of [l2]. *)
Definition is_prefix_of {A : Type} (l1 l2 : list A) : Prop :=
  exists suffix, l2 = l1 ++ suffix.

(** The calls that change a manager, each with the clock reading it logs. *)
Inductive call : Type :=
| CallAdd (now : datetime) (product : Product)
| CallRemove (now : datetime) (product_id : string)
| CallUpdate (now : datetime) (product_id : string) (quantity_change : Z)
    (reason : string).

Definition run_call (c : call) (self : InventoryManager) : InventoryManager :=
  match c with
  | CallAdd now product => snd (add_product now product self)
  | CallRemove now product_id => snd (remove_product now product_id self)
  | CallUpdate now product_id quantity_change reason =>
      snd (update_stock now product_id quantity_change reason self)
  end.

Definition run (calls : list call) (self : InventoryManager)
    : InventoryManager :=
  fold_left (fun st c => run_call c st) calls self.

(** Every stored product has a stock of at least 0. *)
Definition stock_nonneg (self : InventoryManager) : Prop :=
  Forall (fun p => 0 <= stock_quantity p) (dict_values (products self)).

(** Every product handed to [add_product] has a stock of at least 0. *)
Definition adds_nonneg (calls : list call) : Prop :=
  Forall (fun c => match c with
                   | CallAdd _ p => 0 <= stock_quantity p
                   | _ => True
                   end) calls.


(** The shape of the mapping of a manager built by its own operations:
    every product is stored under its own id, no id twice, and every
    expiration date is a datetime the constructor accepts. *)
Definition wf_products (d : dict Product) : Prop :=
  Forall (fun kv => fst kv = id (snd kv)) d
  /\ NoDup (dict_keys d)
  /\ Forall (fun kv => forall e, expiration_date (snd kv) = Some e ->
                                 valid_datetime e = true) d.

Definition wf_product (p : Product) : Prop :=
  forall e, expiration_date p = Some e -> valid_datetime e = true.

(** A computation that leaves the transaction log as it found it. *)
Definition keeps_log {A : Type} (m : M A) : Prop :=
  forall self, transactions (snd (m self)) = transactions self.

(** ** Sample data *)

Definition noon : datetime := mkDatetime 2024 6 15 12 0 0 0.

Definition vitamina : Product :=
  {| id := "PROD001";
     name := "Vitamina C 1000mg";
     category := ORTOMOLECULAR;
     description := "Acido ascorbico de alta pureza";
     stock_quantity := 50;
     min_stock := 10;
     unit_price := NFloat 2500%float;
     expiration_date := Some (mkDatetime 2024 12 12 12 0 0 0);
     batch_number := Some "VC2024-001";
     supplier := Some "Laboratorio XYZ";
     storage_location := Some "Estante A-1" |}.

Definition arnica : Product :=
  {| id := "PROD003";
     name := "Arnica Montana 30CH";
     category := HOMEOPATIA;
     description := "Globulos homeopaticos";
     stock_quantity := 25;
     min_stock := 5;
     unit_price := NFloat 1800%float;
     expiration_date := None;
     batch_number := Some "AM2024-003";
     supplier := None;
     storage_location := None |}.

(** The manager after [add_product(vitamina)]. *)
Definition one_product : InventoryManager :=
  snd (add_product noon vitamina init).

Definition no_files : filesystem := fun _ => None.

Definition with_expiration (e : datetime) (p : Product) : Product :=
  {| id := id p;
     name := name p;
     category := category p;
     description := description p;
     stock_quantity := stock_quantity p;
     min_stock := min_stock p;
     unit_price := unit_price p;
     expiration_date := Some e;
     batch_number := batch_number p;
     supplier := supplier p;
     storage_location := storage_location p |}.

(** Products that expire 10 days after [noon], one day before it, and at
    23:00 of the same day. *)
Definition expires_in_ten_days : Product :=
  with_expiration (mkDatetime 2024 6 25 12 0 0 0) arnica.

Definition expired_yesterday : Product :=
  with_expiration (mkDatetime 2024 6 14 12 0 0 0) arnica.

Definition expires_tonight : Product :=
  with_expiration (mkDatetime 2024 6 15 23 0 0 0) arnica.

(** A document whose second product has a category that is no member of
    [ProductCategory], and the files that hold it. *)
Definition unknown_category_item : json :=
  JObj [("id", JStr "PROD009");
        ("name", JStr "Jarabe");
        ("category", JStr "jarabes");
        ("description", JStr "");
        ("stock_quantity", JNum (NInt 1));
        ("min_stock", JNum (NInt 0));
        ("unit_price", JNum (NFloat 100%float))].

Definition malformed_document : json :=
  JObj [("products", JList [to_dict arnica; unknown_category_item]);
        ("transactions", JList [])].

Definition malformed_files : filesystem :=
  write_file no_files "inventory.json" (Document malformed_document).

(** The document [save_to_file] writes for a new manager. *)
Definition empty_files : filesystem :=
  save_to_file no_files "inventory.json" init.

(** ** The other queries of the manager *)

(** [a == b] on the members of [ProductCategory]: a member equals itself
    only. *)
Definition ProductCategory_eqb (a b : ProductCategory) : bool :=
  match a, b with
  | ORTOMOLECULAR, ORTOMOLECULAR
  | DERMOCOSMETICA, DERMOCOSMETICA
  | HOMEOPATIA, HOMEOPATIA
  | ALOPATICA, ALOPATICA
  | FITOTERAPIA, FITOTERAPIA
  | FLORALES, FLORALES
  | PROBIOTICOS, PROBIOTICOS
  | HORMONAS, HORMONAS
  | MATERIA_PRIMA, MATERIA_PRIMA
  | OTROS, OTROS => true
  | _, _ => false
  end.

Definition get_products_by_category (c : ProductCategory)
    (self : InventoryManager) : list Product :=
  filter (fun product => ProductCategory_eqb (category product) c)
         (dict_values (products self)).

(** ** Vocabulary of the further properties *)

(** What a call returns. *)
Definition call_returns (c : call) (self : InventoryManager) : bool :=
  match c with
  | CallAdd now product => fst (add_product now product self)
  | CallRemove now product_id => fst (remove_product now product_id self)
  | CallUpdate now product_id quantity_change reason =>
      fst (update_stock now product_id quantity_change reason self)
  end.

(** The record a call hands to [_log_transaction]. *)
Definition call_transaction (c : call) : json :=
  match c with
  | CallAdd now product =>
      JObj [("timestamp", JStr (isoformat now)); ("action", JStr "ADD");
            ("product_id", JStr (id product));
            ("quantity", JNum (NInt (stock_quantity product)));
            ("reason", JStr "")]
  | CallRemove now product_id =>
      JObj [("timestamp", JStr (isoformat now)); ("action", JStr "REMOVE");
            ("product_id", JStr product_id);
            ("quantity", JNum (NInt 0));
            ("reason", JStr "")]
  | CallUpdate now product_id quantity_change reason =>
      JObj [("timestamp", JStr (isoformat now)); ("action", JStr "UPDATE");
            ("product_id", JStr product_id);
            ("quantity", JNum (NInt quantity_change));
            ("reason", JStr reason)]
  end.

(** The calls of a sequence that return true, in order. *)
Fixpoint succeeded (calls : list call) (self : InventoryManager) : list call :=
  match calls with
  | [] => []
  | c :: rest =>
      if call_returns c self
      then c :: succeeded rest (run_call c self)
      else succeeded rest (run_call c self)
  end.

(** The stock of every stored product, by key, in the order of the
    mapping. *)
Definition stock_levels (d : dict Product) : dict Z :=
  map (fun kv => (fst kv, stock_quantity (snd kv))) d.

(** Reading the transaction log as a ledger: ADD opens a product with its
    quantity, REMOVE closes it, UPDATE adds its quantity to the level. *)
Definition replay_transaction (levels : dict Z) (t : json) : dict Z :=
  match txn_field "action" t, txn_field "product_id" t,
        txn_field "quantity" t with
  | Some (JStr action), Some (JStr pid), Some (JNum (NInt q)) =>
      if String.eqb action "ADD" then dict_set pid q levels
      else if String.eqb action "REMOVE" then dict_del pid levels
      else if String.eqb action "UPDATE" then
        match dict_get pid levels with
        | Some level => dict_set pid (level + q) levels
        | None => levels
        end
      else levels
  | _, _, _ => levels
  end.

Definition replay (ts : list json) : dict Z :=
  fold_left replay_transaction ts [].

(** A sequence of [update_stock] calls only. *)
Definition only_updates (calls : list call) : Prop :=
  Forall (fun c => match c with CallUpdate _ _ _ _ => True | _ => False end)
         calls.

(** The mapping built by storing each product of a list under its id, in
    turn, as the loop of [load_from_file] does. *)
Definition dict_of_products (l : list Product) : dict Product :=
  fold_left (fun d p => dict_set (id p) p d) l [].

(** A document with the two keys [save_to_file] writes. *)
Definition document (product_items transaction_items : list json) : json :=
  JObj [("products", JList product_items);
        ("transactions", JList transaction_items)].

From Stdlib Require Import DecimalString.

(** ** The stock report

    The report holds characters above U+00FF, so it is given as the UTF-8
    encoding of the string the source builds: the literals are the bytes of
    the source file, and the strings of the products are encoded by
    [utf8]. *)

Definition nl : string := String "010" "".

(** The UTF-8 bytes of a character below U+0100. *)
Definition utf8_char (c : ascii) : string :=
  let n := nat_of_ascii c in
  if (n <? 128)%nat then String c ""
  else String (ascii_of_nat (192 + n / 64))
         (String (ascii_of_nat (128 + n mod 64)) "").

Fixpoint utf8 (s : string) : string :=
  match s with
  | EmptyString => EmptyString
  | String c s' => (utf8_char c ++ utf8 s')%string
  end.

(** [str(n)] for an integer, as an f-string formats it. *)
Definition str_of_int (n : Z) : string := NilZero.string_of_int (Z.to_int n).

Definition str_of_nat (n : nat) : string := str_of_int (Z.of_nat n).

(** An optional value in an f-string: [None] prints as its name. *)
Definition str_of_opt_int (o : option Z) : string :=
  match o with
  | Some n => str_of_int n
  | None => "None"
  end.

Definition str_of_opt_str (o : option string) : string :=
  match o with
  | Some s => utf8 s
  | None => "None"
  end.

(** [s * n] *)
Fixpoint str_repeat (s : string) (n : nat) : string :=
  match n with
  | O => EmptyString
  | S n' => (s ++ str_repeat s n')%string
  end.

Definition is_ascii_lower (c : ascii) : bool :=
  let n := nat_of_ascii c in ((97 <=? n) && (n <=? 122))%nat.

Definition is_ascii_upper (c : ascii) : bool :=
  let n := nat_of_ascii c in ((65 <=? n) && (n <=? 90))%nat.

(** [s.title()] on an ASCII string, as every value of [ProductCategory]
    is: a letter that follows a letter is lowercase, any other letter is
    uppercase. *)
Fixpoint title_from (after_letter : bool) (s : string) : string :=
  match s with
  | EmptyString => EmptyString
  | String c s' =>
      if is_ascii_lower c then
        String (if after_letter then c
                else ascii_of_nat (nat_of_ascii c - 32))
               (title_from true s')
      else if is_ascii_upper c then
        String (if after_letter then ascii_of_nat (nat_of_ascii c + 32)
                else c)
               (title_from true s')
      else String c (title_from false s')
  end.

Definition title (s : string) : string := title_from false s.

(** The locals of [generate_stock_report]. *)
Definition total_products (self : InventoryManager) : nat :=
  List.length (products self).

(** [sum] adds from 0, in the order of the mapping. *)
Definition total_stock (self : InventoryManager) : Z :=
  fold_left Z.add (map stock_quantity (dict_values (products self))) 0.

Definition low_stock (self : InventoryManager) : nat :=
  List.length (get_low_stock_products self).

Definition expired (now : datetime) (self : InventoryManager) : nat :=
  List.length (get_expired_products now self).

Definition near_expiration (now : datetime) (self : InventoryManager) : nat :=
  List.length (get_near_expiration_products now 30 self).

(** The lines the loops of the report add. *)
Definition category_line (c : ProductCategory) (count : nat) : string :=
  ("   • " ++ title (value c) ++ ": " ++ str_of_nat count ++ " productos"
   ++ nl)%string.

Definition low_stock_line (product : Product) : string :=
  ("   • " ++ utf8 (name product) ++ ": "
   ++ str_of_int (stock_quantity product) ++ " unidades (mínimo: "
   ++ str_of_int (min_stock product) ++ ")" ++ nl)%string.

Definition near_expiration_line (now : datetime) (product : Product)
    : string :=
  let days := days_until_expiration now product in
  ("   • " ++ utf8 (name product) ++ ": " ++ str_of_opt_int days ++ " días"
   ++ nl)%string.

Definition expired_line (product : Product) : string :=
  ("   • " ++ utf8 (name product) ++ " - Lote: "
   ++ str_of_opt_str (batch_number product) ++ nl)%string.

(** The text up to the categories, with the five statistics in it. *)
Definition report_head (n_products n_stock n_low n_expired n_near : string) : string :=
  (nl ++
   "╔══════════════════════════════════════════════════════════════╗" ++
   nl ++
   "║          REPORTE DE INVENTARIO - FARMACIA NIETO              ║" ++
   nl ++
   "╚══════════════════════════════════════════════════════════════╝" ++
   nl ++
   nl ++
   "📊 ESTADÍSTICAS GENERALES:" ++
   nl ++
   "   • Total de productos: " ++
   n_products ++
   nl ++
   "   • Unidades totales en stock: " ++
   n_stock ++
   nl ++
   "   • Productos con stock bajo: " ++
   n_low ++
   nl ++
   "   • Productos vencidos: " ++
   n_expired ++
   nl ++
   "   • Productos próximos a vencer (30 días): " ++
   n_near ++
   nl ++
   nl ++
   "🏷️  PRODUCTOS POR CATEGORÍA:" ++
   nl)%string.

Definition generate_stock_report (now : datetime) (self : InventoryManager)
    : string :=
  let report :=
    report_head (str_of_nat (total_products self))
      (str_of_int (total_stock self))
      (str_of_nat (low_stock self))
      (str_of_nat (expired now self))
      (str_of_nat (near_expiration now self)) in
  let report :=
    fold_left
      (fun report c =>
         let count := List.length (get_products_by_category c self) in
         if (0 <? count)%nat
         then (report ++ category_line c count)%string
         else report)
      categories report in
  let report :=
    if (0 <? low_stock self)%nat then
      fold_left (fun report product =>
                   (report ++ low_stock_line product)%string)
        (get_low_stock_products self)
        (report ++ nl ++ "⚠️  ALERTAS DE STOCK BAJO:" ++ nl)%string
    else report in
  let report :=
    if (0 <? near_expiration now self)%nat then
      fold_left (fun report product =>
                   (report ++ near_expiration_line now product)%string)
        (get_near_expiration_products now 30 self)
        (report ++ nl ++ "⏰ PRODUCTOS PRÓXIMOS A VENCER:" ++ nl)%string
    else report in
  let report :=
    if (0 <? expired now self)%nat then
      fold_left (fun report product =>
                   (report ++ expired_line product)%string)
        (get_expired_products now self)
        (report ++ nl ++ "❌ PRODUCTOS VENCIDOS (RETIRAR DEL INVENTARIO):"
         ++ nl)%string
    else report in
  (report ++ nl ++ str_repeat "═" 64 ++ nl)%string.

(** The products handed to [add_product] carry datetimes. *)
Definition adds_wf (calls : list call) : Prop :=
  Forall (fun c => match c with CallAdd _ p => wf_product p | _ => True end)
         calls.

(** ** A product before and after a stock update *)

(** [p'] is [p] in every field but the stock. *)
Definition same_but_stock (p p' : Product) : Prop :=
  id p' = id p
  /\ name p' = name p
  /\ category p' = category p
  /\ description p' = description p
  /\ min_stock p' = min_stock p
  /\ unit_price p' = unit_price p
  /\ expiration_date p' = expiration_date p
  /\ batch_number p' = batch_number p
  /\ supplier p' = supplier p
  /\ storage_location p' = storage_location p.

(** ** Strings of any code points

    The strings of the products hold characters below U+0100.  To say what
    [search_products] does on the other characters, a string is here the
    list of its code points, and [lower_unicode] is [str.lower] on it: the
    lowercase mapping of Unicode 14.0, as CPython 3.11 carries it, and the
    rule of the final sigma. *)

Definition ustr : Type := list N.


(** The characters with a lowercase form of one character: runs of code
    points [first, first + step, ..., last], each mapped [offset] places
    further. *)
Definition LOWERCASE : list (N * N * N * Z) :=
  [(65, 90, 1, (32)%Z); (192, 214, 1, (32)%Z); (216, 222, 1, (32)%Z);
   (256, 302, 2, (1)%Z); (306, 310, 2, (1)%Z); (313, 327, 2, (1)%Z);
   (330, 374, 2, (1)%Z); (376, 376, 1, (-121)%Z); (377, 381, 2, (1)%Z);
   (385, 385, 1, (210)%Z); (386, 388, 2, (1)%Z); (390, 390, 1, (206)%Z);
   (391, 391, 1, (1)%Z); (393, 394, 1, (205)%Z); (395, 395, 1, (1)%Z);
   (398, 398, 1, (79)%Z); (399, 399, 1, (202)%Z); (400, 400, 1, (203)%Z);
   (401, 401, 1, (1)%Z); (403, 403, 1, (205)%Z); (404, 404, 1, (207)%Z);
   (406, 406, 1, (211)%Z); (407, 407, 1, (209)%Z); (408, 408, 1, (1)%Z);
   (412, 412, 1, (211)%Z); (413, 413, 1, (213)%Z); (415, 415, 1, (214)%Z);
   (416, 420, 2, (1)%Z); (422, 422, 1, (218)%Z); (423, 423, 1, (1)%Z);
   (425, 425, 1, (218)%Z); (428, 428, 1, (1)%Z); (430, 430, 1, (218)%Z);
   (431, 431, 1, (1)%Z); (433, 434, 1, (217)%Z); (435, 437, 2, (1)%Z);
   (439, 439, 1, (219)%Z); (440, 440, 1, (1)%Z); (444, 444, 1, (1)%Z);
   (452, 452, 1, (2)%Z); (453, 453, 1, (1)%Z); (455, 455, 1, (2)%Z);
   (456, 456, 1, (1)%Z); (458, 458, 1, (2)%Z); (459, 475, 2, (1)%Z);
   (478, 494, 2, (1)%Z); (497, 497, 1, (2)%Z); (498, 500, 2, (1)%Z);
   (502, 502, 1, (-97)%Z); (503, 503, 1, (-56)%Z); (504, 542, 2, (1)%Z);
   (544, 544, 1, (-130)%Z); (546, 562, 2, (1)%Z); (570, 570, 1, (10795)%Z);
   (571, 571, 1, (1)%Z); (573, 573, 1, (-163)%Z); (574, 574, 1, (10792)%Z);
   (577, 577, 1, (1)%Z); (579, 579, 1, (-195)%Z); (580, 580, 1, (69)%Z);
   (581, 581, 1, (71)%Z); (582, 590, 2, (1)%Z); (880, 882, 2, (1)%Z);
   (886, 886, 1, (1)%Z); (895, 895, 1, (116)%Z); (902, 902, 1, (38)%Z);
   (904, 906, 1, (37)%Z); (908, 908, 1, (64)%Z); (910, 911, 1, (63)%Z);
   (913, 929, 1, (32)%Z); (931, 939, 1, (32)%Z); (975, 975, 1, (8)%Z);
   (984, 1006, 2, (1)%Z); (1012, 1012, 1, (-60)%Z); (1015, 1015, 1, (1)%Z);
   (1017, 1017, 1, (-7)%Z); (1018, 1018, 1, (1)%Z); (1021, 1023, 1, (-130)%Z);
   (1024, 1039, 1, (80)%Z); (1040, 1071, 1, (32)%Z); (1120, 1152, 2, (1)%Z);
   (1162, 1214, 2, (1)%Z); (1216, 1216, 1, (15)%Z); (1217, 1229, 2, (1)%Z);
   (1232, 1326, 2, (1)%Z); (1329, 1366, 1, (48)%Z); (4256, 4293, 1, (7264)%Z);
   (4295, 4295, 1, (7264)%Z); (4301, 4301, 1, (7264)%Z); (5024, 5103, 1, (38864)%Z);
   (5104, 5109, 1, (8)%Z); (7312, 7354, 1, (-3008)%Z); (7357, 7359, 1, (-3008)%Z);
   (7680, 7828, 2, (1)%Z); (7838, 7838, 1, (-7615)%Z); (7840, 7934, 2, (1)%Z);
   (7944, 7951, 1, (-8)%Z); (7960, 7965, 1, (-8)%Z); (7976, 7983, 1, (-8)%Z);
   (7992, 7999, 1, (-8)%Z); (8008, 8013, 1, (-8)%Z); (8025, 8031, 2, (-8)%Z);
   (8040, 8047, 1, (-8)%Z); (8072, 8079, 1, (-8)%Z); (8088, 8095, 1, (-8)%Z);
   (8104, 8111, 1, (-8)%Z); (8120, 8121, 1, (-8)%Z); (8122, 8123, 1, (-74)%Z);
   (8124, 8124, 1, (-9)%Z); (8136, 8139, 1, (-86)%Z); (8140, 8140, 1, (-9)%Z);
   (8152, 8153, 1, (-8)%Z); (8154, 8155, 1, (-100)%Z); (8168, 8169, 1, (-8)%Z);
   (8170, 8171, 1, (-112)%Z); (8172, 8172, 1, (-7)%Z); (8184, 8185, 1, (-128)%Z);
   (8186, 8187, 1, (-126)%Z); (8188, 8188, 1, (-9)%Z); (8486, 8486, 1, (-7517)%Z);
   (8490, 8490, 1, (-8383)%Z); (8491, 8491, 1, (-8262)%Z); (8498, 8498, 1, (28)%Z);
   (8544, 8559, 1, (16)%Z); (8579, 8579, 1, (1)%Z); (9398, 9423, 1, (26)%Z);
   (11264, 11311, 1, (48)%Z); (11360, 11360, 1, (1)%Z); (11362, 11362, 1, (-10743)%Z);
   (11363, 11363, 1, (-3814)%Z); (11364, 11364, 1, (-10727)%Z); (11367, 11371, 2, (1)%Z);
   (11373, 11373, 1, (-10780)%Z); (11374, 11374, 1, (-10749)%Z); (11375, 11375, 1, (-10783)%Z);
   (11376, 11376, 1, (-10782)%Z); (11378, 11378, 1, (1)%Z); (11381, 11381, 1, (1)%Z);
   (11390, 11391, 1, (-10815)%Z); (11392, 11490, 2, (1)%Z); (11499, 11501, 2, (1)%Z);
   (11506, 11506, 1, (1)%Z); (42560, 42604, 2, (1)%Z); (42624, 42650, 2, (1)%Z);
   (42786, 42798, 2, (1)%Z); (42802, 42862, 2, (1)%Z); (42873, 42875, 2, (1)%Z);
   (42877, 42877, 1, (-35332)%Z); (42878, 42886, 2, (1)%Z); (42891, 42891, 1, (1)%Z);
   (42893, 42893, 1, (-42280)%Z); (42896, 42898, 2, (1)%Z); (42902, 42920, 2, (1)%Z);
   (42922, 42922, 1, (-42308)%Z); (42923, 42923, 1, (-42319)%Z); (42924, 42924, 1, (-42315)%Z);
   (42925, 42925, 1, (-42305)%Z); (42926, 42926, 1, (-42308)%Z); (42928, 42928, 1, (-42258)%Z);
   (42929, 42929, 1, (-42282)%Z); (42930, 42930, 1, (-42261)%Z); (42931, 42931, 1, (928)%Z);
   (42932, 42946, 2, (1)%Z); (42948, 42948, 1, (-48)%Z); (42949, 42949, 1, (-42307)%Z);
   (42950, 42950, 1, (-35384)%Z); (42951, 42953, 2, (1)%Z); (42960, 42960, 1, (1)%Z);
   (42966, 42968, 2, (1)%Z); (42997, 42997, 1, (1)%Z); (65313, 65338, 1, (32)%Z);
   (66560, 66599, 1, (40)%Z); (66736, 66771, 1, (40)%Z); (66928, 66964, 2, (39)%Z);
   (66929, 66937, 2, (39)%Z); (66941, 66953, 2, (39)%Z); (66957, 66961, 2, (39)%Z);
   (66965, 66965, 1, (39)%Z); (68736, 68786, 1, (64)%Z); (71840, 71871, 1, (32)%Z);
   (93760, 93791, 1, (32)%Z); (125184, 125217, 1, (34)%Z)]%N.

(** The characters the final-sigma rule skips. *)
Definition CASE_IGNORABLE : list (N * N) :=
  [(39, 39); (46, 46); (58, 58); (94, 94); (96, 96);
   (168, 168); (173, 173); (175, 175); (180, 180); (183, 184);
   (688, 879); (884, 885); (890, 890); (900, 901); (903, 903);
   (1155, 1161); (1369, 1369); (1375, 1375); (1425, 1469); (1471, 1471);
   (1473, 1474); (1476, 1477); (1479, 1479); (1524, 1524); (1536, 1541);
   (1552, 1562); (1564, 1564); (1600, 1600); (1611, 1631); (1648, 1648);
   (1750, 1757); (1759, 1768); (1770, 1773); (1807, 1807); (1809, 1809);
   (1840, 1866); (1958, 1968); (2027, 2037); (2042, 2042); (2045, 2045);
   (2070, 2093); (2137, 2139); (2184, 2184); (2192, 2193); (2200, 2207);
   (2249, 2306); (2362, 2362); (2364, 2364); (2369, 2376); (2381, 2381);
   (2385, 2391); (2402, 2403); (2417, 2417); (2433, 2433); (2492, 2492);
   (2497, 2500); (2509, 2509); (2530, 2531); (2558, 2558); (2561, 2562);
   (2620, 2620); (2625, 2626); (2631, 2632); (2635, 2637); (2641, 2641);
   (2672, 2673); (2677, 2677); (2689, 2690); (2748, 2748); (2753, 2757);
   (2759, 2760); (2765, 2765); (2786, 2787); (2810, 2815); (2817, 2817);
   (2876, 2876); (2879, 2879); (2881, 2884); (2893, 2893); (2901, 2902);
   (2914, 2915); (2946, 2946); (3008, 3008); (3021, 3021); (3072, 3072);
   (3076, 3076); (3132, 3132); (3134, 3136); (3142, 3144); (3146, 3149);
   (3157, 3158); (3170, 3171); (3201, 3201); (3260, 3260); (3263, 3263);
   (3270, 3270); (3276, 3277); (3298, 3299); (3328, 3329); (3387, 3388);
   (3393, 3396); (3405, 3405); (3426, 3427); (3457, 3457); (3530, 3530);
   (3538, 3540); (3542, 3542); (3633, 3633); (3636, 3642); (3654, 3662);
   (3761, 3761); (3764, 3772); (3782, 3782); (3784, 3789); (3864, 3865);
   (3893, 3893); (3895, 3895); (3897, 3897); (3953, 3966); (3968, 3972);
   (3974, 3975); (3981, 3991); (3993, 4028); (4038, 4038); (4141, 4144);
   (4146, 4151); (4153, 4154); (4157, 4158); (4184, 4185); (4190, 4192);
   (4209, 4212); (4226, 4226); (4229, 4230); (4237, 4237); (4253, 4253);
   (4348, 4348); (4957, 4959); (5906, 5908); (5938, 5939); (5970, 5971);
   (6002, 6003); (6068, 6069); (6071, 6077); (6086, 6086); (6089, 6099);
   (6103, 6103); (6109, 6109); (6155, 6159); (6211, 6211); (6277, 6278);
   (6313, 6313); (6432, 6434); (6439, 6440); (6450, 6450); (6457, 6459);
   (6679, 6680); (6683, 6683); (6742, 6742); (6744, 6750); (6752, 6752);
   (6754, 6754); (6757, 6764); (6771, 6780); (6783, 6783); (6823, 6823);
   (6832, 6862); (6912, 6915); (6964, 6964); (6966, 6970); (6972, 6972);
   (6978, 6978); (7019, 7027); (7040, 7041); (7074, 7077); (7080, 7081);
   (7083, 7085); (7142, 7142); (7144, 7145); (7149, 7149); (7151, 7153);
   (7212, 7219); (7222, 7223); (7288, 7293); (7376, 7378); (7380, 7392);
   (7394, 7400); (7405, 7405); (7412, 7412); (7416, 7417); (7468, 7530);
   (7544, 7544); (7579, 7679); (8125, 8125); (8127, 8129); (8141, 8143);
   (8157, 8159); (8173, 8175); (8189, 8190); (8203, 8207); (8216, 8217);
   (8228, 8228); (8231, 8231); (8234, 8238); (8288, 8292); (8294, 8303);
   (8305, 8305); (8319, 8319); (8336, 8348); (8400, 8432); (11388, 11389);
   (11503, 11505); (11631, 11631); (11647, 11647); (11744, 11775); (11823, 11823);
   (12293, 12293); (12330, 12333); (12337, 12341); (12347, 12347); (12441, 12446);
   (12540, 12542); (40981, 40981); (42232, 42237); (42508, 42508); (42607, 42610);
   (42612, 42621); (42623, 42623); (42652, 42655); (42736, 42737); (42752, 42785);
   (42864, 42864); (42888, 42890); (42994, 42996); (43000, 43001); (43010, 43010);
   (43014, 43014); (43019, 43019); (43045, 43046); (43052, 43052); (43204, 43205);
   (43232, 43249); (43263, 43263); (43302, 43309); (43335, 43345); (43392, 43394);
   (43443, 43443); (43446, 43449); (43452, 43453); (43471, 43471); (43493, 43494);
   (43561, 43566); (43569, 43570); (43573, 43574); (43587, 43587); (43596, 43596);
   (43632, 43632); (43644, 43644); (43696, 43696); (43698, 43700); (43703, 43704);
   (43710, 43711); (43713, 43713); (43741, 43741); (43756, 43757); (43763, 43764);
   (43766, 43766); (43867, 43871); (43881, 43883); (44005, 44005); (44008, 44008);
   (44013, 44013); (64286, 64286); (64434, 64450); (65024, 65039); (65043, 65043);
   (65056, 65071); (65106, 65106); (65109, 65109); (65279, 65279); (65287, 65287);
   (65294, 65294); (65306, 65306); (65342, 65342); (65344, 65344); (65392, 65392);
   (65438, 65439); (65507, 65507); (65529, 65531); (66045, 66045); (66272, 66272);
   (66422, 66426); (67456, 67461); (67463, 67504); (67506, 67514); (68097, 68099);
   (68101, 68102); (68108, 68111); (68152, 68154); (68159, 68159); (68325, 68326);
   (68900, 68903); (69291, 69292); (69446, 69456); (69506, 69509); (69633, 69633);
   (69688, 69702); (69744, 69744); (69747, 69748); (69759, 69761); (69811, 69814);
   (69817, 69818); (69821, 69821); (69826, 69826); (69837, 69837); (69888, 69890);
   (69927, 69931); (69933, 69940); (70003, 70003); (70016, 70017); (70070, 70078);
   (70089, 70092); (70095, 70095); (70191, 70193); (70196, 70196); (70198, 70199);
   (70206, 70206); (70367, 70367); (70371, 70378); (70400, 70401); (70459, 70460);
   (70464, 70464); (70502, 70508); (70512, 70516); (70712, 70719); (70722, 70724);
   (70726, 70726); (70750, 70750); (70835, 70840); (70842, 70842); (70847, 70848);
   (70850, 70851); (71090, 71093); (71100, 71101); (71103, 71104); (71132, 71133);
   (71219, 71226); (71229, 71229); (71231, 71232); (71339, 71339); (71341, 71341);
   (71344, 71349); (71351, 71351); (71453, 71455); (71458, 71461); (71463, 71467);
   (71727, 71735); (71737, 71738); (71995, 71996); (71998, 71998); (72003, 72003);
   (72148, 72151); (72154, 72155); (72160, 72160); (72193, 72202); (72243, 72248);
   (72251, 72254); (72263, 72263); (72273, 72278); (72281, 72283); (72330, 72342);
   (72344, 72345); (72752, 72758); (72760, 72765); (72767, 72767); (72850, 72871);
   (72874, 72880); (72882, 72883); (72885, 72886); (73009, 73014); (73018, 73018);
   (73020, 73021); (73023, 73029); (73031, 73031); (73104, 73105); (73109, 73109);
   (73111, 73111); (73459, 73460); (78896, 78904); (92912, 92916); (92976, 92982);
   (92992, 92995); (94031, 94031); (94095, 94111); (94176, 94177); (94179, 94180);
   (110576, 110579); (110581, 110587); (110589, 110590); (113821, 113822); (113824, 113827);
   (118528, 118573); (118576, 118598); (119143, 119145); (119155, 119170); (119173, 119179);
   (119210, 119213); (119362, 119364); (121344, 121398); (121403, 121452); (121461, 121461);
   (121476, 121476); (121499, 121503); (121505, 121519); (122880, 122886); (122888, 122904);
   (122907, 122913); (122915, 122916); (122918, 122922); (123184, 123197); (123566, 123566);
   (123628, 123631); (125136, 125142); (125252, 125259); (127995, 127999); (917505, 917505);
   (917536, 917631); (917760, 917999)]%N.

(** The cased characters among those the rule does not skip. *)
Definition CASED : list (N * N) :=
  [(65, 90); (97, 122); (170, 170); (181, 181); (186, 186);
   (192, 214); (216, 246); (248, 442); (444, 447); (452, 659);
   (661, 687); (880, 883); (886, 887); (891, 893); (895, 895);
   (902, 902); (904, 906); (908, 908); (910, 929); (931, 1013);
   (1015, 1153); (1162, 1327); (1329, 1366); (1376, 1416); (4256, 4293);
   (4295, 4295); (4301, 4301); (4304, 4346); (4349, 4351); (5024, 5109);
   (5112, 5117); (7296, 7304); (7312, 7354); (7357, 7359); (7424, 7467);
   (7531, 7543); (7545, 7578); (7680, 7957); (7960, 7965); (7968, 8005);
   (8008, 8013); (8016, 8023); (8025, 8025); (8027, 8027); (8029, 8029);
   (8031, 8061); (8064, 8116); (8118, 8124); (8126, 8126); (8130, 8132);
   (8134, 8140); (8144, 8147); (8150, 8155); (8160, 8172); (8178, 8180);
   (8182, 8188); (8450, 8450); (8455, 8455); (8458, 8467); (8469, 8469);
   (8473, 8477); (8484, 8484); (8486, 8486); (8488, 8488); (8490, 8493);
   (8495, 8500); (8505, 8505); (8508, 8511); (8517, 8521); (8526, 8526);
   (8544, 8575); (8579, 8580); (9398, 9449); (11264, 11387); (11390, 11492);
   (11499, 11502); (11506, 11507); (11520, 11557); (11559, 11559); (11565, 11565);
   (42560, 42605); (42624, 42651); (42786, 42863); (42865, 42887); (42891, 42894);
   (42896, 42954); (42960, 42961); (42963, 42963); (42965, 42969); (42997, 42998);
   (43002, 43002); (43824, 43866); (43872, 43880); (43888, 43967); (64256, 64262);
   (64275, 64279); (65313, 65338); (65345, 65370); (66560, 66639); (66736, 66771);
   (66776, 66811); (66928, 66938); (66940, 66954); (66956, 66962); (66964, 66965);
   (66967, 66977); (66979, 66993); (66995, 67001); (67003, 67004); (68736, 68786);
   (68800, 68850); (71840, 71903); (93760, 93823); (119808, 119892); (119894, 119964);
   (119966, 119967); (119970, 119970); (119973, 119974); (119977, 119980); (119982, 119993);
   (119995, 119995); (119997, 120003); (120005, 120069); (120071, 120074); (120077, 120084);
   (120086, 120092); (120094, 120121); (120123, 120126); (120128, 120132); (120134, 120134);
   (120138, 120144); (120146, 120485); (120488, 120512); (120514, 120538); (120540, 120570);
   (120572, 120596); (120598, 120628); (120630, 120654); (120656, 120686); (120688, 120712);
   (120714, 120744); (120746, 120770); (120772, 120779); (122624, 122633); (122635, 122654);
   (125184, 125251); (127280, 127305); (127312, 127337); (127344, 127369)]%N.

Definition in_ranges (c : N) (t : list (N * N)) : bool :=
  existsb (fun r => (fst r <=? c)%N && (c <=? snd r)%N) t.

Definition lower_offset (c : N) : Z :=
  match find (fun '(first, last, step, _) =>
                (first <=? c)%N && (c <=? last)%N
                && ((c - first) mod step =? 0)%N) LOWERCASE with
  | Some (_, _, _, offset) => offset
  | None => 0
  end.

(** The lowercase form of one character; U+0130 alone has one of two
    characters. *)
Definition to_lower_full (c : N) : list N :=
  if (c =? 304)%N then [105%N; 775%N]
  else [Z.to_N (Z.of_N c + lower_offset c)].

Fixpoint first_not_ignorable (s : ustr) : option N :=
  match s with
  | [] => None
  | c :: r =>
      if in_ranges c CASE_IGNORABLE then first_not_ignorable r else Some c
  end.

(** Whether a capital sigma is final: a cased character before it and
    none after it, skipped characters aside.  [before] lists the
    characters before the sigma from the nearest on. *)
Definition final_sigma (before after : ustr) : bool :=
  match first_not_ignorable before with
  | Some c =>
      in_ranges c CASED
      && match first_not_ignorable after with
         | Some c' => negb (in_ranges c' CASED)
         | None => true
         end
  | None => false
  end.

Fixpoint lower_from (before s : ustr) : ustr :=
  match s with
  | [] => []
  | c :: r =>
      (if (c =? 931)%N
       then [if final_sigma before r then 962%N else 963%N]
       else to_lower_full c)
      ++ lower_from (c :: before) r
  end.





(** *** Case below U+0100, letter by letter *)







(** * Properties *)

(** ** Dictionaries *)

Section DictFacts.
Context {V : Type}.
Implicit Types (d : dict V) (k : string) (v : V).

Lemma dict_contains_get_none k d :
  dict_contains k d = false <-> dict_get k d = None.
Proof.
  unfold dict_contains. destruct (dict_get k d); split; congruence.
Qed.

Lemma dict_contains_get_some k d :
  dict_contains k d = true <-> exists v, dict_get k d = Some v.
Proof.
  unfold dict_contains. destruct (dict_get k d) as [v|]; split.
  - eauto.
  - reflexivity.
  - discriminate.
  - intros [v H]. discriminate.
Qed.

Lemma dict_get_none_keys k d :
  dict_get k d = None <-> ~ In k (dict_keys d).
Proof.
  induction d as [|[k' v'] r IH]; simpl.
  - tauto.
  - destruct (String.eqb_spec k k') as [->|Hne].
    + split; [discriminate | intros H; exfalso; apply H; now left].
    + rewrite IH. split.
      * intros H [E|I]; [congruence | tauto].
      * tauto.
Qed.

Lemma dict_set_absent k v d :
  dict_get k d = None -> dict_set k v d = d ++ [(k, v)].
Proof.
  induction d as [|[k' v'] r IH]; simpl; intros H.
  - reflexivity.
  - destruct (String.eqb k k'); [discriminate|].
    now rewrite IH.
Qed.

Lemma dict_get_set_same k v d : dict_get k (dict_set k v d) = Some v.
Proof.
  induction d as [|[k' v'] r IH]; simpl.
  - now rewrite String.eqb_refl.
  - destruct (String.eqb k k') eqn:E; simpl; rewrite E; auto.
Qed.

Lemma dict_get_set_other k k' v d :
  k' <> k -> dict_get k' (dict_set k v d) = dict_get k' d.
Proof.
  intros Hne. induction d as [|[k0 v0] r IH]; simpl.
  - apply String.eqb_neq in Hne. now rewrite Hne.
  - destruct (String.eqb_spec k k0) as [->|Hk]; simpl.
    + apply String.eqb_neq in Hne. now rewrite Hne.
    + now rewrite IH.
Qed.

Lemma dict_keys_set_present k v d :
  dict_get k d <> None -> dict_keys (dict_set k v d) = dict_keys d.
Proof.
  induction d as [|[k0 v0] r IH]; simpl; intros H.
  - congruence.
  - destruct (String.eqb k k0); simpl; [reflexivity|].
    f_equal. now apply IH.
Qed.

Lemma dict_keys_set_absent k v d :
  dict_get k d = None -> dict_keys (dict_set k v d) = dict_keys d ++ [k].
Proof.
  intros H. rewrite dict_set_absent by assumption.
  unfold dict_keys. now rewrite map_app.
Qed.

Lemma in_values_set k v d x :
  In x (dict_values (dict_set k v d)) -> x = v \/ In x (dict_values d).
Proof.
  induction d as [|[k0 v0] r IH]; simpl.
  - intros [E|[]]. now left.
  - destruct (String.eqb k k0); simpl.
    + intros [E|I]; auto.
    + intros [E|I]; auto. destruct (IH I); auto.
Qed.

Lemma in_values_del k d x :
  In x (dict_values (dict_del k d)) -> In x (dict_values d).
Proof.
  induction d as [|[k0 v0] r IH]; simpl.
  - tauto.
  - destruct (String.eqb k k0); simpl; intuition.
Qed.

Lemma in_dict_del k d kv : In kv (dict_del k d) -> In kv d.
Proof.
  induction d as [|[k0 v0] r IH]; simpl.
  - tauto.
  - destruct (String.eqb k k0); simpl; intuition.
Qed.

Lemma in_dict_set k v d kv :
  In kv (dict_set k v d) -> kv = (k, v) \/ In kv d.
Proof.
  induction d as [|[k0 v0] r IH]; simpl.
  - intros [E|[]]. now left.
  - destruct (String.eqb_spec k k0) as [->|Hk]; simpl.
    + intros [E|I]; auto.
    + intros [E|I]; auto. destruct (IH I); auto.
Qed.

Lemma NoDup_keys_del k d :
  NoDup (dict_keys d) -> NoDup (dict_keys (dict_del k d)).
Proof.
  induction d as [|[k0 v0] r IH]; simpl; intros H.
  - constructor.
  - inversion H as [|? ? Hn Hr]; subst.
    destruct (String.eqb k k0); simpl; [assumption|].
    constructor; [|now apply IH].
    intros I. apply Hn. unfold dict_keys in *.
    apply in_map_iff in I as [[k1 v1] [E I]]. simpl in E. subst k1.
    apply in_dict_del in I. apply in_map_iff. now exists (k0, v1).
Qed.

Lemma NoDup_keys_set k v d :
  NoDup (dict_keys d) -> NoDup (dict_keys (dict_set k v d)).
Proof.
  intros H. destruct (dict_get k d) eqn:E.
  - rewrite dict_keys_set_present by congruence. assumption.
  - rewrite dict_keys_set_absent by assumption.
    apply dict_get_none_keys in E.
    apply NoDup_app; auto.
    + constructor; [tauto | constructor].
    + intros x Hx [<-|[]]. contradiction.
Qed.
Lemma dict_get_del_other k k' d :
  k' <> k -> dict_get k' (dict_del k d) = dict_get k' d.
Proof.
  intros Hne. induction d as [|[k0 v0] r IH]; simpl.
  - reflexivity.
  - destruct (String.eqb_spec k k0) as [->|Hk]; simpl.
    + apply String.eqb_neq in Hne. now rewrite Hne.
    + now rewrite IH.
Qed.

Lemma dict_get_del_same k d :
  NoDup (dict_keys d) -> dict_get k (dict_del k d) = None.
Proof.
  induction d as [|[k0 v0] r IH]; simpl; intros N.
  - reflexivity.
  - inversion N as [|? ? Hn Hr]; subst.
    destruct (String.eqb_spec k k0) as [->|Hk]; simpl.
    + now apply dict_get_none_keys.
    + apply String.eqb_neq in Hk. rewrite Hk. now apply IH.
Qed.

End DictFacts.

(** ** Stock updates and the transaction log *)

Lemma log_transactions now action pid q reason st :
  transactions (_log_transaction now action pid q reason st)
  = transactions st
    ++ [JObj [("timestamp", JStr (isoformat now)); ("action", JStr action);
              ("product_id", JStr pid); ("quantity", JNum (NInt q));
              ("reason", JStr reason)]].
Proof. reflexivity. Qed.

Lemma log_products now action pid q reason st :
  products (_log_transaction now action pid q reason st) = products st.
Proof. reflexivity. Qed.

(** C5. [add_product] refuses an id that is already stored and changes
    nothing; otherwise it stores the product under its id, after the
    products already there, logs exactly one ADD transaction whose quantity
    is the product's stock, and returns true. *)
Theorem add_product_spec (now : datetime) (p : Product) (st : InventoryManager) :
  (dict_contains (id p) (products st) = true ->
   add_product now p st = (false, st))
  /\
  (dict_contains (id p) (products st) = false ->
   exists st' t,
     add_product now p st = (true, st')
     /\ products st' = products st ++ [(id p, p)]
     /\ get_product (id p) st' = Some p
     /\ (forall k, k <> id p -> get_product k st' = get_product k st)
     /\ transactions st' = transactions st ++ [t]
     /\ txn_field "action" t = Some (JStr "ADD")
     /\ txn_field "product_id" t = Some (JStr (id p))
     /\ txn_field "quantity" t = Some (JNum (NInt (stock_quantity p)))).
Proof.
  unfold add_product. split; intros H; rewrite H.
  - reflexivity.
  - apply dict_contains_get_none in H.
    eexists. eexists. split; [reflexivity|].
    rewrite log_products, log_transactions. simpl products.
    repeat split.
    + now apply dict_set_absent.
    + apply dict_get_set_same.
    + intros k Hk. now apply dict_get_set_other.
Qed.

Lemma add_product_spec_witness :
  add_product noon vitamina one_product = (false, one_product)
  /\ fst (add_product noon arnica one_product) = true.
Proof.
  split.
  - apply (add_product_spec noon vitamina one_product). reflexivity.
  - destruct (add_product_spec noon arnica one_product) as [_ H].
    destruct (H eq_refl) as (st' & t & E & _). now rewrite E.
Defined.

(** C1. [update_stock] returns false and changes nothing when the id is
    not stored or when the stock would become negative.  Otherwise it
    returns true, the stock read back from the product is the old stock
    plus the change, every other field of the product is as before, the
    other products and the order of the mapping are untouched, and exactly
    one UPDATE transaction with the change and the reason is logged.  A
    change of minus the stock succeeds and leaves a stock of 0. *)
Theorem update_stock_spec (now : datetime) (pid : string) (delta : Z)
    (reason : string) (st : InventoryManager) :
  (get_product pid st = None ->
   update_stock now pid delta reason st = (false, st))
  /\
  (forall p, get_product pid st = Some p ->
     stock_quantity p + delta < 0 ->
     update_stock now pid delta reason st = (false, st))
  /\
  (forall p, get_product pid st = Some p ->
     0 <= stock_quantity p + delta ->
     exists st' t p',
       update_stock now pid delta reason st = (true, st')
       /\ get_product pid st' = Some p'
       /\ stock_quantity p' = stock_quantity p + delta
       /\ same_but_stock p p'
       /\ p' = set_stock_quantity (stock_quantity p + delta) p
       /\ (forall k, k <> pid -> get_product k st' = get_product k st)
       /\ dict_keys (products st') = dict_keys (products st)
       /\ transactions st' = transactions st ++ [t]
       /\ txn_field "action" t = Some (JStr "UPDATE")
       /\ txn_field "product_id" t = Some (JStr pid)
       /\ txn_field "quantity" t = Some (JNum (NInt delta))
       /\ txn_field "reason" t = Some (JStr reason))
  /\
  (forall p, get_product pid st = Some p ->
     exists st' p',
       update_stock now pid (- stock_quantity p) reason st = (true, st')
       /\ get_product pid st' = Some p'
       /\ stock_quantity p' = 0).
Proof.
  unfold get_product.
  assert (Hok : forall d p, dict_get pid (products st) = Some p ->
            0 <= stock_quantity p + d ->
            update_stock now pid d reason st
            = (true, _log_transaction now "UPDATE" pid d reason
                       {| products := dict_set pid
                            (set_stock_quantity (stock_quantity p + d) p)
                            (products st);
                          transactions := transactions st |})).
  { intros d p Hp Hd. unfold update_stock. rewrite Hp.
    destruct (Z.ltb_spec (stock_quantity p + d) 0); [lia | reflexivity]. }
  repeat split.
  - intros H. unfold update_stock. now rewrite H.
  - intros p Hp Hneg. unfold update_stock. rewrite Hp.
    destruct (Z.ltb_spec (stock_quantity p + delta) 0); [reflexivity | lia].
  - intros p Hp Hd.
    exists (_log_transaction now "UPDATE" pid delta reason
              {| products := dict_set pid
                   (set_stock_quantity (stock_quantity p + delta) p)
                   (products st);
                 transactions := transactions st |}).
    eexists. exists (set_stock_quantity (stock_quantity p + delta) p).
    split; [exact (Hok delta p Hp Hd)|].
    rewrite log_products, log_transactions. simpl products.
    split; [apply dict_get_set_same|].
    split; [reflexivity|].
    split; [repeat split|].
    split; [reflexivity|].
    repeat split.
    + intros k Hk. now apply dict_get_set_other.
    + apply dict_keys_set_present. congruence.
  - intros p Hp. eexists. eexists. split; [apply (Hok _ p Hp); lia|].
    rewrite log_products. simpl products. split.
    + apply dict_get_set_same.
    + simpl. lia.
Qed.

Lemma update_stock_spec_witness :
  update_stock noon "PROD404" 1 "" one_product = (false, one_product)
  /\ update_stock noon "PROD001" (-51) "Venta" one_product
     = (false, one_product)
  /\ exists st' p',
       update_stock noon "PROD001" (-45) "Venta" one_product = (true, st')
       /\ get_product "PROD001" st' = Some p'
       /\ stock_quantity p' = 5
       /\ min_stock p' = 10
       /\ name p' = "Vitamina C 1000mg".
Proof.
  pose proof (update_stock_spec noon "PROD404" 1 "" one_product) as H1.
  pose proof (update_stock_spec noon "PROD001" (-51) "Venta" one_product) as H2.
  pose proof (update_stock_spec noon "PROD001" (-45) "Venta" one_product) as H3.
  split; [|split].
  - apply H1. reflexivity.
  - destruct H2 as (_ & H2 & _). apply (H2 vitamina); [reflexivity | simpl; lia].
  - destruct H3 as (_ & _ & H3 & _).
    destruct (H3 vitamina) as (st' & t & p' & E & G & S & B & _);
      [reflexivity | simpl; lia |].
    destruct B as (_ & Bn & _ & _ & Bm & _).
    exists st', p'. rewrite S, Bm, Bn. repeat split; assumption.
Defined.

(** ** The stock invariant *)

Lemma stock_nonneg_set k p d :
  0 <= stock_quantity p ->
  Forall (fun p => 0 <= stock_quantity p) (dict_values d) ->
  Forall (fun p => 0 <= stock_quantity p) (dict_values (dict_set k p d)).
Proof.
  intros Hp Hd. apply Forall_forall. intros x Hx.
  apply in_values_set in Hx as [->|Hx]; [assumption|].
  rewrite Forall_forall in Hd. now apply Hd.
Qed.

Lemma stock_nonneg_del k d :
  Forall (fun p => 0 <= stock_quantity p) (dict_values d) ->
  Forall (fun p => 0 <= stock_quantity p) (dict_values (dict_del k d)).
Proof.
  intros Hd. apply Forall_forall. intros x Hx.
  apply in_values_del in Hx. rewrite Forall_forall in Hd. now apply Hd.
Qed.

Lemma run_call_stock_nonneg c st :
  match c with CallAdd _ p => 0 <= stock_quantity p | _ => True end ->
  stock_nonneg st -> stock_nonneg (run_call c st).
Proof.
  unfold stock_nonneg.
  destruct c as [now p | now pid | now pid delta reason]; simpl; intros Hc Hst.
  - unfold add_product. destruct (dict_contains (id p) (products st)); simpl.
    + assumption.
    + now apply stock_nonneg_set.
  - unfold remove_product.
    destruct (dict_contains pid (products st)); simpl.
    + now apply stock_nonneg_del.
    + assumption.
  - unfold update_stock. destruct (dict_get pid (products st)) as [p|]; simpl.
    + destruct (Z.ltb_spec (stock_quantity p + delta) 0); simpl.
      * assumption.
      * now apply stock_nonneg_set.
    + assumption.
Qed.

(** C2. A successful [update_stock] stores a stock of at least 0, whatever
    the state before; and when every stored product and every product
    handed to [add_product] has a stock of at least 0, so has every stored
    product after any sequence of [add_product], [remove_product] and
    [update_stock] calls. *)
Theorem stock_nonneg_invariant :
  (forall now pid delta reason st st' p',
     update_stock now pid delta reason st = (true, st') ->
     get_product pid st' = Some p' ->
     0 <= stock_quantity p')
  /\
  (forall calls st,
     stock_nonneg st -> adds_nonneg calls -> stock_nonneg (run calls st)).
Proof.
  split.
  - intros now pid delta reason st st' p'. unfold update_stock, get_product.
    destruct (dict_get pid (products st)) as [p|]; [|discriminate].
    destruct (Z.ltb_spec (stock_quantity p + delta) 0); [discriminate|].
    intros E. injection E as <-. simpl.
    rewrite dict_get_set_same. intros E. injection E as <-. assumption.
  - induction calls as [|c calls IH]; intros st Hst Hcalls.
    + exact Hst.
    + inversion Hcalls as [|? ? Hc Hrest]; subst. simpl.
      apply IH; [|assumption]. now apply run_call_stock_nonneg.
Qed.

Lemma stock_nonneg_invariant_witness :
  stock_nonneg
    (run [CallAdd noon arnica;
          CallUpdate noon "PROD001" (-50) "Venta";
          CallUpdate noon "PROD003" (-26) "Venta";
          CallRemove noon "PROD003"] one_product).
Proof.
  apply (proj2 stock_nonneg_invariant).
  - repeat constructor; simpl; lia.
  - repeat constructor; simpl; lia.
Defined.

(** ** The transaction log under the calls *)

Lemma is_prefix_of_refl {A : Type} (l : list A) : is_prefix_of l l.
Proof. exists []. now rewrite app_nil_r. Qed.

Lemma is_prefix_of_trans {A : Type} (l1 l2 l3 : list A) :
  is_prefix_of l1 l2 -> is_prefix_of l2 l3 -> is_prefix_of l1 l3.
Proof.
  intros [s1 ->] [s2 ->]. exists (s1 ++ s2). now rewrite app_assoc.
Qed.

Lemma run_call_log c st :
  is_prefix_of (transactions st) (transactions (run_call c st)).
Proof.
  destruct c as [now p | now pid | now pid delta reason]; simpl.
  - unfold add_product. destruct (dict_contains (id p) (products st)); simpl.
    + apply is_prefix_of_refl.
    + eexists. reflexivity.
  - unfold remove_product.
    destruct (dict_contains pid (products st)); simpl.
    + eexists. reflexivity.
    + apply is_prefix_of_refl.
  - unfold update_stock. destruct (dict_get pid (products st)) as [p|]; simpl.
    + destruct (stock_quantity p + delta <? 0); simpl.
      * apply is_prefix_of_refl.
      * eexists. reflexivity.
    + apply is_prefix_of_refl.
Qed.

Lemma run_log calls st :
  is_prefix_of (transactions st) (transactions (run calls st)).
Proof.
  revert st. induction calls as [|c calls IH]; intros st; simpl.
  - apply is_prefix_of_refl.
  - eapply is_prefix_of_trans; [apply run_call_log | apply IH].
Qed.

(** ** Removal, and the scenario of the specification *)

(** X1. [remove_product] returns false and changes nothing when the id is
    not stored; otherwise it deletes the entry, keeps the other products,
    logs exactly one REMOVE transaction with quantity 0 and returns true. *)
Theorem remove_product_spec (now : datetime) (pid : string)
    (st : InventoryManager) :
  NoDup (dict_keys (products st)) ->
  (get_product pid st = None ->
   remove_product now pid st = (false, st))
  /\
  (forall p, get_product pid st = Some p ->
     exists st' t,
       remove_product now pid st = (true, st')
       /\ get_product pid st' = None
       /\ (forall k, k <> pid -> get_product k st' = get_product k st)
       /\ transactions st' = transactions st ++ [t]
       /\ txn_field "action" t = Some (JStr "REMOVE")
       /\ txn_field "product_id" t = Some (JStr pid)
       /\ txn_field "quantity" t = Some (JNum (NInt 0))).
Proof.
  intros N. unfold get_product, remove_product, dict_contains. split.
  - intros H. now rewrite H.
  - intros p H. rewrite H. simpl negb. cbv iota.
    eexists. eexists. split; [reflexivity|].
    rewrite log_products, log_transactions. simpl products.
    repeat split.
    + now apply dict_get_del_same.
    + intros k Hk. now apply dict_get_del_other.
Qed.

Lemma remove_product_spec_witness :
  fst (remove_product noon "PROD001" one_product) = true
  /\ remove_product noon "PROD404" one_product = (false, one_product).
Proof.
  assert (N : NoDup (dict_keys (products one_product))).
  { repeat constructor. simpl. tauto. }
  destruct (remove_product_spec noon "PROD001" one_product N) as [_ H1].
  destruct (remove_product_spec noon "PROD404" one_product N) as [H2 _].
  split.
  - destruct (H1 vitamina eq_refl) as (st' & t & E & _). now rewrite E.
  - apply H2. reflexivity.
Defined.

(** The scenario: from a new manager, adding P1 with a stock of 50
    and a minimum of 10 succeeds; taking 45 succeeds and leaves a low stock
    of 5; taking 10 more is refused and the stock stays 5; removing P1
    succeeds, after which P1 is not found. *)
Theorem scenario_P1 :
  let p1 := {| id := "P1"; name := "P1"; category := OTROS;
               description := ""; stock_quantity := 50; min_stock := 10;
               unit_price := NInt 0; expiration_date := None;
               batch_number := None; supplier := None;
               storage_location := None |} in
  let r1 := add_product noon p1 init in
  let r2 := update_stock noon "P1" (-45) "" (snd r1) in
  let r3 := update_stock noon "P1" (-10) "" (snd r2) in
  let r4 := remove_product noon "P1" (snd r3) in
  fst r1 = true
  /\ fst r2 = true
  /\ option_map stock_quantity (get_product "P1" (snd r2)) = Some 5
  /\ option_map is_low_stock (get_product "P1" (snd r2)) = Some true
  /\ fst r3 = false
  /\ option_map stock_quantity (get_product "P1" (snd r3)) = Some 5
  /\ fst r4 = true
  /\ get_product "P1" (snd r4) = None
  /\ List.length (transactions (snd r4)) = 3%nat.
Proof. cbv zeta. repeat split. Qed.

(** ** Datetimes: the order of the fields is the order of the instants *)

Lemma valid_datetime_spec d :
  valid_datetime d = true ->
  (1 <= year d <= 9999) /\ (1 <= month d <= 12)
  /\ (1 <= day d <= days_in_month (year d) (month d))
  /\ (0 <= hour d < 24) /\ (0 <= minute d < 60) /\ (0 <= second d < 60)
  /\ (0 <= microsecond d < 1000000).
Proof.
  unfold valid_datetime. rewrite !andb_true_iff, !Z.leb_le, !Z.ltb_lt. lia.
Qed.

Ltac split_month m :=
  let H := fresh "Hm" in
  assert (H : m = 1 \/ m = 2 \/ m = 3 \/ m = 4 \/ m = 5 \/ m = 6 \/ m = 7
              \/ m = 8 \/ m = 9 \/ m = 10 \/ m = 11 \/ m = 12) by lia;
  repeat (destruct H as [H|H]; [subst m|]); [..|subst m].

Lemma days_before_year_succ y :
  days_before_year (y + 1)
  = days_before_year y + (if is_leap y then 366 else 365).
Proof.
  unfold days_before_year, is_leap. cbv zeta.
  replace (y + 1 - 1) with y by lia.
  destruct (Z.eqb_spec (y mod 4) 0), (Z.eqb_spec (y mod 100) 0),
    (Z.eqb_spec (y mod 400) 0); simpl; Z.div_mod_to_equations; lia.
Qed.

Lemma days_before_year_mono y1 y2 :
  y1 <= y2 -> days_before_year y1 <= days_before_year y2.
Proof.
  unfold days_before_year. cbv zeta. intros H.
  Z.div_mod_to_equations. lia.
Qed.

Lemma day_of_year_bounds y m d :
  1 <= m <= 12 -> 1 <= d <= days_in_month y m ->
  1 <= days_before_month y m + d <= (if is_leap y then 366 else 365).
Proof.
  intros Hm Hd. unfold days_in_month, days_before_month in *.
  split_month m; destruct (is_leap y); cbv -[Z.add Z.le Z.lt] in *; lia.
Qed.

Lemma days_before_month_step y m1 m2 d :
  1 <= m1 -> m1 < m2 -> m2 <= 12 -> d <= days_in_month y m1 ->
  days_before_month y m1 + d <= days_before_month y m2.
Proof.
  intros H1 H12 H2 Hd. unfold days_in_month, days_before_month in *.
  split_month m1; split_month m2; try lia;
    destruct (is_leap y); cbv -[Z.add Z.le Z.lt] in *; lia.
Qed.

Lemma ymd2ord_lt_year y1 m1 d1 y2 m2 d2 :
  1 <= m1 <= 12 -> 1 <= d1 <= days_in_month y1 m1 ->
  1 <= m2 <= 12 -> 1 <= d2 <= days_in_month y2 m2 ->
  y1 < y2 -> ymd2ord y1 m1 d1 < ymd2ord y2 m2 d2.
Proof.
  intros Hm1 Hd1 Hm2 Hd2 Hy. unfold ymd2ord.
  pose proof (day_of_year_bounds y1 m1 d1 Hm1 Hd1) as B1.
  pose proof (day_of_year_bounds y2 m2 d2 Hm2 Hd2) as B2.
  pose proof (days_before_year_succ y1) as S1.
  pose proof (days_before_year_mono (y1 + 1) y2 ltac:(lia)) as M.
  destruct (is_leap y1), (is_leap y2); lia.
Qed.

Lemma ymd2ord_lt_month y m1 d1 m2 d2 :
  1 <= m1 <= 12 -> 1 <= d1 <= days_in_month y m1 ->
  1 <= m2 <= 12 -> 1 <= d2 <= days_in_month y m2 ->
  m1 < m2 -> ymd2ord y m1 d1 < ymd2ord y m2 d2.
Proof.
  intros Hm1 Hd1 Hm2 Hd2 Hm. unfold ymd2ord.
  pose proof (days_before_month_step y m1 m2 d1 ltac:(lia) Hm ltac:(lia)
                ltac:(lia)).
  lia.
Qed.

Lemma datetime_compare_instant a b :
  valid_datetime a = true -> valid_datetime b = true ->
  lex_compare (datetime_fields a) (datetime_fields b)
  = (instant a ?= instant b).
Proof.
  intros Va Vb.
  apply valid_datetime_spec in Va as (Ya & Ma & Da & Ha & Mia & Sa & Ua).
  apply valid_datetime_spec in Vb as (Yb & Mb & Db & Hb & Mib & Sb & Ub).
  destruct a as [ya ma da ha mia sa ua], b as [yb mb db hb mib sb ub].
  unfold instant, toordinal, datetime_fields in *. simpl in *.
  symmetry.
  destruct (Z.compare_spec ya yb) as [Ey|Ly|Ly].
  2:{ pose proof (ymd2ord_lt_year ya ma da yb mb db Ma Da Mb Db Ly).
      apply Z.compare_lt_iff. lia. }
  2:{ pose proof (ymd2ord_lt_year yb mb db ya ma da Mb Db Ma Da Ly).
      apply Z.compare_gt_iff. lia. }
  subst yb.
  destruct (Z.compare_spec ma mb) as [Em|Lm|Lm].
  2:{ pose proof (ymd2ord_lt_month ya ma da mb db Ma Da Mb Db Lm).
      apply Z.compare_lt_iff. lia. }
  2:{ pose proof (ymd2ord_lt_month ya mb db ma da Mb Db Ma Da Lm).
      apply Z.compare_gt_iff. lia. }
  subst mb. unfold ymd2ord.
  destruct (Z.compare_spec da db) as [Ed|Ld|Ld];
    [subst db | apply Z.compare_lt_iff; lia | apply Z.compare_gt_iff; lia].
  destruct (Z.compare_spec ha hb) as [Eh|Lh|Lh];
    [subst hb | apply Z.compare_lt_iff; lia | apply Z.compare_gt_iff; lia].
  destruct (Z.compare_spec mia mib) as [Emi|Lmi|Lmi];
    [subst mib | apply Z.compare_lt_iff; lia | apply Z.compare_gt_iff; lia].
  destruct (Z.compare_spec sa sb) as [Es|Ls|Ls];
    [subst sb | apply Z.compare_lt_iff; lia | apply Z.compare_gt_iff; lia].
  destruct (Z.compare_spec ua ub) as [Eu|Lu|Lu];
    [subst ub | apply Z.compare_lt_iff; lia | apply Z.compare_gt_iff; lia].
  apply Z.compare_refl.
Qed.

Lemma datetime_gt_instant a b :
  valid_datetime a = true -> valid_datetime b = true ->
  (datetime_gt a b = true <-> instant b < instant a).
Proof.
  intros Va Vb. unfold datetime_gt.
  rewrite (datetime_compare_instant a b Va Vb).
  destruct (Z.compare_spec (instant a) (instant b)); split;
    intros; try lia; try discriminate; reflexivity.
Qed.

Lemma datetime_sub_days a b :
  days (datetime_sub a b) = (instant a - instant b) / US_PER_DAY.
Proof.
  unfold datetime_sub, timedelta_of, instant. cbv zeta. simpl days.
  f_equal. lia.
Qed.

(** ** Expiration predicates *)

(** C7. For a clock reading [now] and a product whose expiration date, if
    set, is a datetime: [is_expired] holds exactly when a date is set and
    [now] is strictly after it; [days_until_expiration] is [None] without a
    date and otherwise the difference date minus [now] in whole days
    (rounded down, so negative once the date has passed);
    [is_near_expiration] holds exactly when that number of days is above 0
    and at most the threshold.  A product that expired exactly one day ago
    is expired and near expiration for no threshold; one that expires in
    exactly 10 days is near expiration for 30 and not for 5. *)
Theorem expiration_predicates (now : datetime) (p : Product) :
  valid_datetime now = true ->
  wf_product p ->
  (is_expired now p = true <->
   exists e, expiration_date p = Some e /\ instant now > instant e)
  /\ (expiration_date p = None ->
      is_expired now p = false /\ days_until_expiration now p = None)
  /\ (forall e, expiration_date p = Some e ->
      days_until_expiration now p
      = Some ((instant e - instant now) / US_PER_DAY))
  /\ (forall threshold,
      is_near_expiration now p threshold = true <->
      exists d, days_until_expiration now p = Some d /\ 0 < d <= threshold)
  /\ (forall e, expiration_date p = Some e ->
      instant e = instant now - US_PER_DAY ->
      is_expired now p = true
      /\ days_until_expiration now p = Some (-1)
      /\ forall threshold, is_near_expiration now p threshold = false)
  /\ (forall e, expiration_date p = Some e ->
      instant e = instant now + 10 * US_PER_DAY ->
      is_near_expiration now p 30 = true
      /\ is_near_expiration now p 5 = false).
Proof.
  intros Vnow Vp.
  pose proof (eq_refl : US_PER_DAY = 86400000000) as HD.
  assert (Hdays : forall e, expiration_date p = Some e ->
            days_until_expiration now p
            = Some ((instant e - instant now) / US_PER_DAY)).
  { intros e He. unfold days_until_expiration. rewrite He. cbv zeta.
    now rewrite datetime_sub_days. }
  assert (Hexp : forall e, expiration_date p = Some e ->
            (is_expired now p = true <-> instant now > instant e)).
  { intros e He. unfold is_expired. rewrite He.
    rewrite (datetime_gt_instant now e Vnow (Vp e He)). lia. }
  assert (Hnear : forall threshold,
            is_near_expiration now p threshold = true <->
            exists d, days_until_expiration now p = Some d
                      /\ 0 < d <= threshold).
  { intros threshold. unfold is_near_expiration.
    destruct (days_until_expiration now p) as [d|]; split.
    - rewrite andb_true_iff, Z.ltb_lt, Z.leb_le. intros H. now exists d.
    - intros (d' & E & H). injection E as <-.
      rewrite andb_true_iff, Z.ltb_lt, Z.leb_le. exact H.
    - discriminate.
    - intros (d' & E & _). discriminate. }
  repeat split.
  - intros H. unfold is_expired in H.
    destruct (expiration_date p) as [e|] eqn:He; [|discriminate].
    exists e. split; [reflexivity|]. apply (Hexp e); [reflexivity|].
    unfold is_expired. now rewrite He.
  - intros (e & He & H). now apply (Hexp e).
  - unfold is_expired. now rewrite H.
  - unfold days_until_expiration. now rewrite H.
  - exact Hdays.
  - apply Hnear.
  - apply Hnear.
  - apply (Hexp e); [assumption | lia].
  - rewrite (Hdays e) by assumption. f_equal.
    replace (instant e - instant now) with (-1 * US_PER_DAY) by lia.
    now rewrite Z.div_mul.
  - intros threshold. apply not_true_is_false. intros T.
    apply Hnear in T as (d & E & Hd). rewrite (Hdays e) in E by assumption.
    injection E as <-.
    replace (instant e - instant now) with (-1 * US_PER_DAY) in Hd by lia.
    rewrite Z.div_mul in Hd; [lia | discriminate].
  - apply Hnear. exists 10. split; [|lia].
    rewrite (Hdays e) by assumption. f_equal.
    replace (instant e - instant now) with (10 * US_PER_DAY) by lia.
    now rewrite Z.div_mul.
  - apply not_true_is_false. intros T.
    apply Hnear in T as (d & E & Hd). rewrite (Hdays e) in E by assumption.
    injection E as <-.
    replace (instant e - instant now) with (10 * US_PER_DAY) in Hd by lia.
    rewrite Z.div_mul in Hd; [lia | discriminate].
Qed.

Lemma expiration_predicates_witness :
  (is_near_expiration noon expires_in_ten_days 30 = true
   /\ is_near_expiration noon expires_in_ten_days 5 = false)
  /\ is_expired noon expired_yesterday = true.
Proof.
  split.
  - assert (W : wf_product expires_in_ten_days).
    { intros e E. injection E as <-. reflexivity. }
    destruct (expiration_predicates noon expires_in_ten_days eq_refl W)
      as (_ & _ & _ & _ & _ & H).
    apply (H (mkDatetime 2024 6 25 12 0 0 0)); reflexivity.
  - assert (W : wf_product expired_yesterday).
    { intros e E. injection E as <-. reflexivity. }
    destruct (expiration_predicates noon expired_yesterday eq_refl W)
      as (_ & _ & _ & _ & H & _).
    apply (H (mkDatetime 2024 6 14 12 0 0 0)); reflexivity.
Defined.

(** C10. A product whose expiration date is strictly after [now] and less
    than one day away has 0 days until expiration: it is not expired, it is
    near expiration for no threshold, and it is in neither the expired nor
    the near-expiration listing. *)
Theorem expires_within_a_day (now : datetime) (p : Product) (e : datetime) :
  valid_datetime now = true ->
  valid_datetime e = true ->
  expiration_date p = Some e ->
  instant now < instant e ->
  instant e - instant now < US_PER_DAY ->
  days_until_expiration now p = Some 0
  /\ (forall threshold, is_near_expiration now p threshold = false)
  /\ is_expired now p = false
  /\ (forall st, ~ In p (get_expired_products now st))
  /\ (forall st threshold,
        ~ In p (get_near_expiration_products now threshold st)).
Proof.
  intros Vnow Ve He Hfuture Hday.
  assert (D : days_until_expiration now p = Some 0).
  { unfold days_until_expiration. rewrite He. cbv zeta.
    rewrite datetime_sub_days. f_equal.
    apply Z.div_small. unfold US_PER_DAY in *. lia. }
  assert (N : forall threshold, is_near_expiration now p threshold = false).
  { intros threshold. unfold is_near_expiration. now rewrite D. }
  assert (X : is_expired now p = false).
  { apply not_true_is_false. unfold is_expired. rewrite He.
    rewrite (datetime_gt_instant now e Vnow Ve). lia. }
  repeat split; try assumption.
  - intros st I. unfold get_expired_products in I.
    apply filter_In in I as [_ I]. congruence.
  - intros st threshold I. unfold get_near_expiration_products in I.
    apply filter_In in I as [_ I]. rewrite N in I. discriminate.
Qed.

Lemma expires_within_a_day_witness :
  days_until_expiration noon expires_tonight = Some 0
  /\ is_expired noon expires_tonight = false.
Proof.
  destruct (expires_within_a_day noon expires_tonight
              (mkDatetime 2024 6 15 23 0 0 0))
    as (D & _ & X & _); try reflexivity.
  split; assumption.
Defined.

(** ** Search *)

Lemma prefix_spec q s :
  String.prefix q s = true <-> exists post, s = (q ++ post)%string.
Proof.
  revert s. induction q as [|a q IH]; intros s.
  - destruct s; simpl; split; eauto.
  - destruct s as [|b s]; simpl.
    + split; [discriminate | intros [post H]; discriminate].
    + destruct (ascii_dec a b) as [->|Hne].
      * rewrite IH. split; intros [post H]; exists post.
        -- now rewrite H.
        -- now injection H.
      * split; [discriminate|]. intros [post H]. injection H as E _.
        congruence.
Qed.

Lemma str_in_unfold q s :
  str_in q s
  = if String.prefix q s then true
    else match s with
         | EmptyString => false
         | String _ s' => str_in q s'
         end.
Proof. destruct s; reflexivity. Qed.

Lemma str_in_spec q s :
  str_in q s = true <-> exists pre post, s = (pre ++ q ++ post)%string.
Proof.
  induction s as [|c s IH]; rewrite str_in_unfold.
  - destruct (String.prefix q "") eqn:P.
    + apply prefix_spec in P as [post P]. split; [|reflexivity].
      intros _. now exists ""%string, post.
    + split; [discriminate|]. intros (pre & post & H).
      destruct pre; [|discriminate]. simpl in H.
      assert (String.prefix q "" = true) by (apply prefix_spec; eauto).
      congruence.
  - destruct (String.prefix q (String c s)) eqn:P.
    + apply prefix_spec in P as [post P]. split; [|reflexivity].
      intros _. now exists ""%string, post.
    + rewrite IH. split.
      * intros (pre & post & H). exists (String c pre), post.
        simpl. now rewrite H.
      * intros (pre & post & H). destruct pre as [|c' pre].
        -- simpl in H.
           assert (String.prefix q (String c s) = true)
             by (apply prefix_spec; eauto).
           congruence.
        -- injection H as _ H. now exists pre, post.
Qed.




(** ** Case, letter by letter, and the strings of any code points *)















Lemma lower_from_nil before : lower_from before [] = [].
Proof. reflexivity. Qed.





(** ** ISO timestamps are read back *)

Lemma digit_value_digit n : 0 <= n <= 9 -> digit_value (digit n) = Some n.
Proof.
  intros H. rewrite <- (Z2Nat.id n) by lia.
  assert (K : (Z.to_nat n < 10)%nat) by lia.
  revert K. generalize (Z.to_nat n). intros k K.
  do 10 (destruct k as [|k]; [reflexivity|]). lia.
Qed.

Lemma read_digits_step w c s acc :
  read_digits (S w) (String c s) acc
  = match digit_value c with
    | Some v => read_digits w s (10 * acc + v)
    | None => None
    end.
Proof. reflexivity. Qed.

Lemma read_digits_zfill_cont w : forall k n rest acc,
  0 <= n < 10 ^ Z.of_nat w ->
  read_digits (w + k) (zfill w n rest) acc
  = read_digits k rest (acc * 10 ^ Z.of_nat w + n).
Proof.
  induction w as [|w IH]; intros k n rest acc Hn.
  - change (10 ^ Z.of_nat 0) with 1 in *. simpl. f_equal. lia.
  - rewrite Nat2Z.inj_succ, Z.pow_succ_r in * by lia.
    assert (P : 0 < 10 ^ Z.of_nat w) by (apply Z.pow_pos_nonneg; lia).
    simpl zfill. replace (S w + k)%nat with (w + S k)%nat by lia.
    rewrite IH by (Z.div_mod_to_equations; lia).
    rewrite read_digits_step.
    rewrite digit_value_digit by (Z.div_mod_to_equations; lia).
    f_equal. Z.div_mod_to_equations. lia.
Qed.

Lemma read_digits_zfill w n rest :
  0 <= n < 10 ^ Z.of_nat w ->
  read_digits w (zfill w n rest) 0 = Some (n, rest).
Proof.
  intros Hn. pose proof (read_digits_zfill_cont w 0 n rest 0 Hn) as H.
  rewrite Nat.add_0_r in H. rewrite H. simpl. f_equal.
Qed.

Lemma zfill_nonempty w : forall n rest,
  rest <> ""%string -> zfill w n rest <> ""%string.
Proof.
  induction w as [|w IH]; intros n rest H; simpl.
  - assumption.
  - apply IH. discriminate.
Qed.

Lemma isoformat_nonempty d : String.eqb (isoformat d) "" = false.
Proof.
  apply String.eqb_neq. unfold isoformat. apply zfill_nonempty. discriminate.
Qed.

Lemma days_in_month_le_31 y m : 1 <= m <= 12 -> days_in_month y m <= 31.
Proof.
  intros Hm. unfold days_in_month.
  split_month m; destruct (is_leap y); cbv; discriminate.
Qed.

Lemma parse_isoformat_isoformat d :
  valid_datetime d = true -> parse_isoformat (isoformat d) = Some d.
Proof.
  intros V. apply valid_datetime_spec in V as (Y & Mo & D & H & Mi & S & U).
  assert (D' : day d <= 31).
  { pose proof (days_in_month_le_31 (year d) (month d) Mo). lia. }
  destruct d as [y mo da h mi s us]. simpl in *.
  unfold parse_isoformat, isoformat. simpl year. simpl month. simpl day.
  simpl hour. simpl minute. simpl second. simpl microsecond.
  repeat (rewrite read_digits_zfill by (simpl; lia);
          cbn [opt_bind expect Ascii.eqb Bool.eqb]).
  destruct (Z.eqb_spec us 0) as [->|Hus].
  - reflexivity.
  - cbn [opt_bind expect Ascii.eqb Bool.eqb].
    rewrite read_digits_zfill by (simpl; lia).
    reflexivity.
Qed.

Lemma fromisoformat_isoformat d :
  valid_datetime d = true -> fromisoformat (isoformat d) = Ok d.
Proof.
  intros V. unfold fromisoformat.
  now rewrite parse_isoformat_isoformat, V.
Qed.

(** ** The managers the operations build are well formed *)

Lemma dict_get_in {V : Type} (k : string) (v : V) (d : dict V) :
  dict_get k d = Some v -> exists k', String.eqb k k' = true /\ In (k', v) d.
Proof.
  induction d as [|[k0 v0] r IH]; simpl; [discriminate|].
  destruct (String.eqb k k0) eqn:E.
  - intros H. injection H as ->. exists k0. auto.
  - intros H. destruct (IH H) as (k' & Hk & I). exists k'. auto.
Qed.

Lemma wf_products_nil : wf_products [].
Proof. repeat split; constructor. Qed.

Lemma wf_products_set p d :
  wf_product p -> wf_products d -> wf_products (dict_set (id p) p d).
Proof.
  intros Wp (K & N & V). repeat split.
  - apply Forall_forall. intros kv I.
    apply in_dict_set in I as [->|I]; [reflexivity|].
    rewrite Forall_forall in K. now apply K.
  - now apply NoDup_keys_set.
  - apply Forall_forall. intros kv I.
    apply in_dict_set in I as [->|I]; [exact Wp|].
    rewrite Forall_forall in V. now apply V.
Qed.

Lemma wf_products_del k d : wf_products d -> wf_products (dict_del k d).
Proof.
  intros (K & N & V). repeat split.
  - apply Forall_forall. intros kv I. apply in_dict_del in I.
    rewrite Forall_forall in K. now apply K.
  - now apply NoDup_keys_del.
  - apply Forall_forall. intros kv I. apply in_dict_del in I.
    rewrite Forall_forall in V. now apply V.
Qed.

Lemma wf_products_get k p d :
  wf_products d -> dict_get k d = Some p -> k = id p /\ wf_product p.
Proof.
  intros (K & _ & V) G. apply dict_get_in in G as (k' & E & I).
  apply String.eqb_eq in E. subst k'.
  rewrite Forall_forall in K, V. split.
  - exact (K _ I).
  - exact (V _ I).
Qed.

Lemma run_call_wf c st :
  match c with CallAdd _ p => wf_product p | _ => True end ->
  wf_products (products st) -> wf_products (products (run_call c st)).
Proof.
  destruct c as [now p | now pid | now pid delta reason]; simpl; intros Hc W.
  - unfold add_product. destruct (dict_contains (id p) (products st)); simpl.
    + assumption.
    + now apply wf_products_set.
  - unfold remove_product.
    destruct (dict_contains pid (products st)); simpl.
    + now apply wf_products_del.
    + assumption.
  - unfold update_stock.
    destruct (dict_get pid (products st)) as [p|] eqn:G; simpl.
    + destruct (stock_quantity p + delta <? 0); simpl; [assumption|].
      destruct (wf_products_get _ _ _ W G) as [-> Wp].
      apply (wf_products_set (set_stock_quantity _ p)); assumption.
    + assumption.
Qed.

(** Starting from a well-formed manager (the new manager is one), the
    calls keep the mapping well formed as long as the products added
    carry datetimes. *)
Lemma run_wf calls : forall st,
  Forall (fun c => match c with CallAdd _ p => wf_product p | _ => True end)
         calls ->
  wf_products (products st) -> wf_products (products (run calls st)).
Proof.
  induction calls as [|c calls IH]; intros st Hc W; simpl.
  - assumption.
  - inversion Hc as [|? ? H1 H2]; subst. apply IH; [assumption|].
    now apply run_call_wf.
Qed.

Lemma fromisoformat_valid s d :
  fromisoformat s = Ok d -> valid_datetime d = true.
Proof.
  unfold fromisoformat. destruct (parse_isoformat s) as [d'|].
  - destruct (valid_datetime d') eqn:V; [|discriminate].
    intros E. injection E as <-. assumption.
  - destruct (String.length s <? 7)%nat; discriminate.
Qed.

Lemma new_Product_expiration kw p :
  new_Product kw = Ok p ->
  as_opt_datetime (dict_get "expiration_date" kw) = Ok (expiration_date p).
Proof.
  unfold new_Product.
  destruct (negb (forallb _ (dict_keys kw))); [discriminate|].
  destruct (negb (forallb _ required_fields)); [discriminate|].
  repeat match goal with
         | |- context [obind ?m _] =>
             destruct m; cbn [obind]; try discriminate
         end.
  intros E. injection E as <-. reflexivity.
Qed.

Lemma load_product_wf product_data p :
  load_product product_data = Ok p -> wf_product p.
Proof.
  unfold load_product.
  destruct (json_subscript product_data "category"); cbn [obind];
    try discriminate.
  destruct (ProductCategory_of a) as [c| |]; cbn [obind]; try discriminate.
  destruct product_data as [| | | | |o]; try discriminate.
  set (pd := dict_set "category" (PCategory c) _).
  destruct (dict_get "expiration_date" pd) as [e|] eqn:G.
  - destruct (py_truthy e) eqn:T.
    + destruct (fromisoformat_arg e) as [d| |] eqn:F; cbn [obind];
        try discriminate.
      intros N. apply new_Product_expiration in N.
      rewrite dict_get_set_same in N. simpl in N. injection N as N.
      intros e' E. rewrite <- N in E. injection E as <-.
      destruct e as [[| | |s| |]| |]; try discriminate.
      simpl in F. now apply fromisoformat_valid in F.
    + cbn [obind]. intros N. apply new_Product_expiration in N.
      rewrite G in N. intros e' E. rewrite E in N.
      destruct e as [[]| |]; simpl in *; discriminate.
  - cbn [obind]. intros N. apply new_Product_expiration in N.
    rewrite G in N. simpl in N. intros e' E. congruence.
Qed.

Lemma for_each_load_item_wf items : forall st r st',
  wf_products (products st) ->
  for_each items load_item st = (r, st') ->
  wf_products (products st').
Proof.
  induction items as [|x items IH]; intros st r st' W; simpl.
  - unfold mret. intros E. injection E as <- <-. assumption.
  - unfold mbind at 1. unfold load_item at 1.
    unfold mbind, lift, get_products, set_products.
    destruct (load_product x) as [p| |] eqn:L.
    + apply IH. simpl. apply wf_products_set; [|assumption].
      now apply load_product_wf in L.
    + intros E. injection E as <- <-. assumption.
    + intros E. injection E as <- <-. assumption.
Qed.

(** Whatever the file holds, [load_from_file] leaves a well-formed
    mapping in a manager that had one. *)
Lemma load_from_file_wf fs filename st r st' :
  wf_products (products st) ->
  load_from_file fs filename st = (r, st') ->
  wf_products (products st').
Proof.
  intros W.
  unfold load_from_file, try_except. unfold mbind at 1. unfold lift at 1.
  destruct (json_load fs filename) as [data|e|].
  2:{ destruct e; simpl; intros E; injection E as <- <-; assumption. }
  2:{ simpl. intros E; injection E as <- <-; assumption. }
  unfold mbind at 1. unfold set_products at 1.
  unfold mbind at 1. unfold lift at 1.
  destruct (obind (json_get data "products" (JList [])) _) as [items|e|].
  2:{ destruct e; simpl; intros E; injection E as <- <-;
        apply wf_products_nil. }
  2:{ simpl. intros E; injection E as <- <-; apply wf_products_nil. }
  unfold mbind at 1.
  destruct (for_each items load_item _) as [[u|e|] s1] eqn:F;
    apply for_each_load_item_wf in F; try apply wf_products_nil.
  2:{ destruct e; simpl; intros E; injection E as <- <-; assumption. }
  2:{ simpl. intros E; injection E as <- <-; assumption. }
  unfold mbind, lift, set_transactions, mret.
  destruct (obind (json_get data "transactions" (JList [])) _) as [ts|e|].
  - simpl. intros E; injection E as <- <-; assumption.
  - destruct e; simpl; intros E; injection E as <- <-; assumption.
  - intros E; injection E as <- <-; assumption.
Qed.

(** ** Save and load *)

Lemma ProductCategory_of_value c : ProductCategory_of (JStr (value c)) = Ok c.
Proof. destruct c; reflexivity. Qed.

Lemma isoformat_truthy d : py_truthy (PJson (JStr (isoformat d))) = true.
Proof. unfold py_truthy, truthy. now rewrite isoformat_nonempty. Qed.

Lemma load_product_to_dict p :
  wf_product p -> load_product (to_dict p) = Ok p.
Proof.
  intros W. unfold wf_product in W.
  destruct p as [i n c de sq ms up ex bn su sl]. simpl in W.
  unfold load_product, to_dict.
  cbn [id name category description stock_quantity min_stock unit_price
       expiration_date batch_number supplier storage_location].
  change (json_subscript (JObj ?o) "category")
    with (@Ok json (JStr (value c))).
  cbn [obind]. rewrite ProductCategory_of_value. cbn [obind].
  destruct ex as [e|].
  - cbn -[isoformat fromisoformat py_truthy].
    rewrite isoformat_truthy. cbn -[isoformat fromisoformat].
    rewrite (fromisoformat_isoformat e (W e eq_refl)).
    destruct bn, su, sl; reflexivity.
  - destruct bn, su, sl; reflexivity.
Qed.

Lemma wf_products_values d :
  wf_products d -> Forall wf_product (dict_values d).
Proof.
  intros (_ & _ & V). unfold dict_values. apply Forall_map.
  exact V.
Qed.

Lemma for_each_load_item l : forall acc ts,
  Forall wf_product l ->
  for_each (map to_dict l) load_item
    {| products := acc; transactions := ts |}
  = (Ok tt, {| products := fold_left (fun d p => dict_set (id p) p d) l acc;
               transactions := ts |}).
Proof.
  induction l as [|p l IH]; intros acc ts W.
  - reflexivity.
  - inversion W as [|? ? Wp Wl]; subst.
    simpl map. simpl for_each. unfold mbind at 1.
    unfold load_item at 1, mbind, lift, get_products, set_products.
    rewrite (load_product_to_dict p Wp). simpl.
    apply IH. assumption.
Qed.

Lemma fold_dict_set_wf d : forall acc,
  Forall (fun kv => fst kv = id (snd kv)) d ->
  NoDup (dict_keys acc ++ dict_keys d) ->
  fold_left (fun d p => dict_set (id p) p d) (dict_values d) acc = acc ++ d.
Proof.
  induction d as [|[k p] r IH]; intros acc K N.
  - simpl. now rewrite app_nil_r.
  - inversion K as [|? ? Hk Kr]; subst. simpl in Hk. subst k.
    simpl. rewrite dict_set_absent.
    + rewrite IH.
      * now rewrite <- app_assoc.
      * assumption.
      * unfold dict_keys in *. rewrite map_app, <- app_assoc. exact N.
    + apply dict_get_none_keys. intros I.
      apply NoDup_remove_2 in N. apply N. apply in_or_app. now left.
Qed.

(** C3. For a manager whose mapping holds every product under its own
    id (as the manager's operations build it) and whose expiration dates
    are datetimes, loading the file [save_to_file] has just written into a
    new manager succeeds and gives the same manager: the same products in
    the same order, equal in every field, and the same transactions. *)
Theorem save_load_roundtrip (st : InventoryManager) (fs : filesystem)
    (filename : string) :
  wf_products (products st) ->
  load_from_file (save_to_file fs filename st) filename init = (Ok true, st).
Proof.
  intros W. pose proof (wf_products_values _ W) as V.
  destruct W as (K & N & _).
  unfold load_from_file, try_except, mbind at 1, lift at 1.
  unfold json_load, save_to_file, write_file. rewrite String.eqb_refl.
  unfold mbind at 1. unfold set_products at 1. unfold mbind at 1.
  unfold lift at 1. cbn [json_get dict_get String.eqb Ascii.eqb Bool.eqb
                         obind json_iter].
  unfold mbind at 1. cbn [init transactions].
  rewrite (for_each_load_item _ [] [] V).
  rewrite (fold_dict_set_wf (products st) [] K N).
  destruct st as [ps ts]. reflexivity.
Qed.

Lemma save_load_roundtrip_witness :
  load_from_file (save_to_file no_files "inventory.json" one_product)
    "inventory.json" init
  = (Ok true, one_product).
Proof.
  apply (save_load_roundtrip one_product no_files "inventory.json").
  repeat split.
  - repeat constructor.
  - repeat constructor. simpl. tauto.
  - repeat constructor. simpl. intros e E. injection E as <-. reflexivity.
Defined.

(** C8. Loading a path at which there is no file returns false and
    leaves the products and the transactions as they were. *)
Theorem load_missing_file (fs : filesystem) (filename : string)
    (st : InventoryManager) :
  fs filename = None ->
  load_from_file fs filename st = (Ok false, st).
Proof.
  intros H. unfold load_from_file, try_except, mbind, lift, json_load.
  now rewrite H.
Qed.

Lemma load_missing_file_witness :
  load_from_file no_files "inventory.json" one_product
  = (Ok false, one_product).
Proof.
  apply (load_missing_file no_files "inventory.json" one_product).
  reflexivity.
Defined.

(** X2. Loading a file that is no JSON document returns false and leaves
    the manager as it was. *)
Theorem load_not_json (fs : filesystem) (filename : string)
    (st : InventoryManager) :
  fs filename = Some NotJson ->
  load_from_file fs filename st = (Ok false, st).
Proof.
  intros H. unfold load_from_file, try_except, mbind, lift, json_load.
  now rewrite H.
Qed.

Lemma load_not_json_witness :
  load_from_file (write_file no_files "inventory.json" NotJson)
    "inventory.json" one_product
  = (Ok false, one_product).
Proof.
  apply (load_not_json (write_file no_files "inventory.json" NotJson)
           "inventory.json" one_product).
  reflexivity.
Defined.

(** C4. On [malformed_document] the conversion of the second product
    raises; [load_from_file] catches the error and returns false, and the
    transactions are kept, but the mapping is not the one before the call:
    the product stored before is gone and the first product of the document
    is in its place. *)
Theorem load_malformed_document :
  load_product unknown_category_item = Raise ValueError
  /\ load_from_file malformed_files "inventory.json" one_product
     = (Ok false, {| products := [("PROD003", arnica)];
                     transactions := transactions one_product |})
  /\ products (snd (load_from_file malformed_files "inventory.json"
                      one_product))
     <> products one_product.
Proof.
  split; [reflexivity|]. split; [reflexivity|].
  intros E. vm_compute in E. discriminate E.
Qed.

(** ** The transaction log under [load_from_file] *)

Lemma keeps_log_mret {A : Type} (a : A) : keeps_log (mret a).
Proof. intros s. reflexivity. Qed.

Lemma keeps_log_lift {A : Type} (o : outcome A) : keeps_log (lift o).
Proof. intros s. reflexivity. Qed.

Lemma keeps_log_get_products : keeps_log get_products.
Proof. intros s. reflexivity. Qed.

Lemma keeps_log_set_products ps : keeps_log (set_products ps).
Proof. intros s. reflexivity. Qed.

Lemma keeps_log_mbind {A B : Type} (m : M A) (f : A -> M B) :
  keeps_log m -> (forall a, keeps_log (f a)) -> keeps_log (mbind m f).
Proof.
  intros Hm Hf s. unfold mbind. specialize (Hm s).
  destruct (m s) as [[a|e|] s1]; simpl in *.
  - now rewrite Hf.
  - assumption.
  - assumption.
Qed.

Lemma keeps_log_for_each {A : Type} (l : list A) (body : A -> M unit) :
  (forall x, keeps_log (body x)) -> keeps_log (for_each l body).
Proof.
  intros Hb. induction l as [|x l IH]; simpl.
  - apply keeps_log_mret.
  - apply keeps_log_mbind; auto.
Qed.

Lemma keeps_log_load_item product_data : keeps_log (load_item product_data).
Proof.
  unfold load_item.
  apply keeps_log_mbind; [apply keeps_log_lift|]. intros p.
  apply keeps_log_mbind; [apply keeps_log_get_products|]. intros ps.
  apply keeps_log_set_products.
Qed.

Lemma load_from_file_result fs filename st r st' :
  load_from_file fs filename st = (r, st') ->
  (r = Ok true
   /\ exists data,
        json_load fs filename = Ok data
        /\ json_get data "transactions" (JList [])
           = Ok (JList (transactions st')))
  \/ (r = Ok false /\ transactions st' = transactions st)
  \/ r = Unmodelled.
Proof.
  unfold load_from_file, try_except. unfold mbind at 1. unfold lift at 1.
  destruct (json_load fs filename) as [data|e|] eqn:J.
  2:{ destruct e; simpl; intros E; injection E as <- <-; right; left;
        split; reflexivity. }
  2:{ simpl. intros E; injection E as <- <-. right; right; reflexivity. }
  set (rebuild := mbind (set_products [])
                    (fun _ => mbind
                       (lift (obind (json_get data "products" (JList []))
                                (fun l => json_iter l)))
                       (fun items => for_each items load_item))).
  assert (R : keeps_log rebuild).
  { apply keeps_log_mbind; [apply keeps_log_set_products|]. intros _.
    apply keeps_log_mbind; [apply keeps_log_lift|]. intros items.
    apply keeps_log_for_each. apply keeps_log_load_item. }
  assert (E : forall k : M bool,
            mbind (set_products [])
              (fun _ => mbind
                 (lift (obind (json_get data "products" (JList []))
                          (fun l => json_iter l)))
                 (fun items => mbind (for_each items load_item) (fun _ => k)))
              st
            = mbind rebuild (fun _ => k) st).
  { intros k. unfold rebuild, mbind, set_products, lift.
    destruct (obind (json_get data "products" (JList [])) _);
      reflexivity. }
  rewrite E. clear E. unfold mbind at 1.
  specialize (R st). destruct (rebuild st) as [[u|e|] s1]; simpl in R.
  2:{ destruct e; simpl; intros E; injection E as <- <-; right; left;
        split; (reflexivity || assumption). }
  2:{ simpl. intros E; injection E as <- <-. right; right; reflexivity. }
  unfold mbind, lift, set_transactions, mret.
  destruct (json_get data "transactions" (JList [])) as [v|e|] eqn:G; simpl.
  2:{ destruct e; simpl; intros E; injection E as <- <-; right; left;
        split; (reflexivity || assumption). }
  2:{ intros E; injection E as <- <-. right; right; reflexivity. }
  destruct v as [|b|n|s|ts|o]; simpl; intros E; injection E as <- <-;
    try (right; right; reflexivity).
  left. split; [reflexivity|]. exists data. split; [reflexivity | exact G].
Qed.

(** [load_from_file] lets no exception escape: in the runs the model
    follows it returns true or false. *)
Lemma load_from_file_returns fs filename st :
  fst (load_from_file fs filename st) = Ok true
  \/ fst (load_from_file fs filename st) = Ok false
  \/ fst (load_from_file fs filename st) = Unmodelled.
Proof.
  destruct (load_from_file fs filename st) as [r st'] eqn:E. simpl.
  destruct (load_from_file_result fs filename st r st' E)
    as [[H _]|[[H _]|H]]; auto.
Qed.

(** Loading the file [save_to_file] wrote, into any manager. *)
Lemma load_saved_file saved fs filename st :
  wf_products (products saved) ->
  load_from_file (save_to_file fs filename saved) filename st
  = (Ok true, saved).
Proof.
  intros W. pose proof (wf_products_values _ W) as V.
  destruct W as (K & N & _).
  unfold load_from_file, try_except, mbind at 1, lift at 1.
  unfold json_load, save_to_file, write_file. rewrite String.eqb_refl.
  unfold mbind at 1. unfold set_products at 1. unfold mbind at 1.
  unfold lift at 1. cbn [json_get dict_get String.eqb Ascii.eqb Bool.eqb
                         obind json_iter].
  unfold mbind at 1.
  rewrite (for_each_load_item _ [] (transactions st) V).
  rewrite (fold_dict_set_wf (products saved) [] K N).
  destruct saved as [ps ts]. reflexivity.
Qed.

(** C6. The calls [add_product], [remove_product] and [update_stock], one
    or many, only append to the transaction log: the log before is an
    initial segment of the log after.  [load_from_file] is different:
    loading a file that [save_to_file] wrote returns true and puts the
    saved log in the place of the log of the manager, whatever that
    manager had logged. *)
Theorem transaction_log_append_only :
  (forall c st, is_prefix_of (transactions st) (transactions (run_call c st)))
  /\
  (forall calls st,
     is_prefix_of (transactions st) (transactions (run calls st)))
  /\
  (forall saved fs filename st,
     wf_products (products saved) ->
     fst (load_from_file (save_to_file fs filename saved) filename st)
     = Ok true
     /\ transactions
          (snd (load_from_file (save_to_file fs filename saved) filename st))
        = transactions saved).
Proof.
  split; [exact run_call_log|]. split; [exact run_log|].
  intros saved fs filename st W.
  now rewrite (load_saved_file saved fs filename st W).
Qed.

Lemma transaction_log_append_only_witness :
  transactions
    (snd (load_from_file
            (save_to_file no_files "inventory.json" one_product)
            "inventory.json"
            (run [CallUpdate noon "PROD001" (-45) "Venta"] one_product)))
  = transactions one_product.
Proof.
  apply (proj2 (proj2 transaction_log_append_only)).
  repeat split.
  - repeat constructor.
  - repeat constructor. simpl. tauto.
  - repeat constructor. simpl. intros e E. injection E as <-. reflexivity.
Defined.

(** C6, as stated, fails for [load_from_file]: after a successful load of
    a document without transactions the log is empty, and the one logged
    transaction of [one_product] is gone. *)
Lemma load_from_file_drops_log :
  fst (load_from_file empty_files "inventory.json" one_product) = Ok true
  /\ transactions one_product <> []
  /\ ~ is_prefix_of
         (transactions one_product)
         (transactions
            (snd (load_from_file empty_files "inventory.json" one_product))).
Proof.
  split; [reflexivity|]. split; [discriminate|].
  intros [suffix H]. vm_compute in H. discriminate H.
Qed.

(** * Further properties *)

(** ** More on dictionaries *)

Lemma dict_set_set {V : Type} (k : string) (v1 v2 : V) (d : dict V) :
  dict_set k v2 (dict_set k v1 d) = dict_set k v2 d.
Proof.
  induction d as [|[k0 v0] r IH]; simpl.
  - now rewrite String.eqb_refl.
  - destruct (String.eqb k k0) eqn:E; simpl; rewrite E.
    + reflexivity.
    + now rewrite IH.
Qed.

Lemma dict_del_set_absent {V : Type} (k : string) (v : V) (d : dict V) :
  dict_get k d = None -> dict_del k (dict_set k v d) = d.
Proof.
  induction d as [|[k0 v0] r IH]; simpl; intros H.
  - now rewrite String.eqb_refl.
  - destruct (String.eqb k k0) eqn:E; [discriminate|].
    simpl. rewrite E. now rewrite IH.
Qed.

Lemma dict_get_values {V : Type} (k : string) (v : V) (d : dict V) :
  dict_get k d = Some v -> In v (dict_values d).
Proof.
  induction d as [|[k0 v0] r IH]; simpl; [discriminate|].
  destruct (String.eqb k k0).
  - intros E. injection E as ->. now left.
  - intros E. right. now apply IH.
Qed.

Lemma dict_get_map {V W : Type} (f : V -> W) (k : string) (d : dict V) :
  dict_get k (map (fun kv => (fst kv, f (snd kv))) d)
  = option_map f (dict_get k d).
Proof.
  induction d as [|[k0 v0] r IH]; simpl; [reflexivity|].
  destruct (String.eqb k k0); [reflexivity | exact IH].
Qed.

Lemma dict_set_map {V W : Type} (f : V -> W) (k : string) (v : V)
    (d : dict V) :
  map (fun kv => (fst kv, f (snd kv))) (dict_set k v d)
  = dict_set k (f v) (map (fun kv => (fst kv, f (snd kv))) d).
Proof.
  induction d as [|[k0 v0] r IH]; simpl; [reflexivity|].
  destruct (String.eqb k k0); simpl; [reflexivity | now rewrite IH].
Qed.

Lemma dict_del_map {V W : Type} (f : V -> W) (k : string) (d : dict V) :
  map (fun kv => (fst kv, f (snd kv))) (dict_del k d)
  = dict_del k (map (fun kv => (fst kv, f (snd kv))) d).
Proof.
  induction d as [|[k0 v0] r IH]; simpl; [reflexivity|].
  destruct (String.eqb k k0); simpl; [reflexivity | now rewrite IH].
Qed.

(** ** What the calls log *)

Lemma run_call_failed c st : call_returns c st = false -> run_call c st = st.
Proof.
  destruct c as [now p | now pid | now pid delta reason]; simpl.
  - unfold add_product. destruct (dict_contains (id p) (products st));
      [reflexivity | discriminate].
  - unfold remove_product. destruct (dict_contains pid (products st)); simpl;
      [discriminate | reflexivity].
  - unfold update_stock. destruct (dict_get pid (products st)) as [p|];
      [|reflexivity].
    destruct (stock_quantity p + delta <? 0); [reflexivity | discriminate].
Qed.

Lemma run_call_succeeded c st :
  call_returns c st = true ->
  transactions (run_call c st) = transactions st ++ [call_transaction c].
Proof.
  destruct c as [now p | now pid | now pid delta reason]; simpl.
  - unfold add_product. destruct (dict_contains (id p) (products st));
      [discriminate | reflexivity].
  - unfold remove_product. destruct (dict_contains pid (products st)); simpl;
      [reflexivity | discriminate].
  - unfold update_stock. destruct (dict_get pid (products st)) as [p|];
      [|discriminate].
    destruct (stock_quantity p + delta <? 0); [discriminate | reflexivity].
Qed.

(** X3. A call of [add_product], [remove_product] or [update_stock] that
    returns false leaves the whole manager as it was, and after any
    sequence of calls the log is the log before followed by one record per
    call that returned true, in the order of the calls: the record of a
    refused call is never written. *)
Theorem log_records_successful_calls :
  (forall c st, call_returns c st = false -> run_call c st = st)
  /\
  (forall calls st,
     transactions (run calls st)
     = transactions st ++ map call_transaction (succeeded calls st)).
Proof.
  split; [exact run_call_failed|].
  induction calls as [|c calls IH]; intros st; simpl.
  - now rewrite app_nil_r.
  - rewrite IH. destruct (call_returns c st) eqn:R.
    + rewrite (run_call_succeeded c st R). simpl. now rewrite <- app_assoc.
    + now rewrite (run_call_failed c st R).
Qed.

Lemma log_records_successful_calls_witness :
  run_call (CallUpdate noon "PROD001" (-51) "Venta") one_product = one_product
  /\ List.length
       (transactions
          (run [CallUpdate noon "PROD001" (-51) "Venta";
                CallAdd noon arnica; CallAdd noon arnica] one_product))
     = 2%nat.
Proof.
  split.
  - apply (proj1 log_records_successful_calls). reflexivity.
  - rewrite (proj2 log_records_successful_calls). reflexivity.
Defined.

(** ** The log as a ledger *)

Lemma replay_snoc ts t :
  replay (ts ++ [t]) = replay_transaction (replay ts) t.
Proof. unfold replay. now rewrite fold_left_app. Qed.

Lemma run_call_replay c st :
  replay (transactions st) = stock_levels (products st) ->
  replay (transactions (run_call c st)) = stock_levels (products (run_call c st)).
Proof.
  intros H. destruct (call_returns c st) eqn:R.
  2:{ now rewrite (run_call_failed c st R). }
  rewrite (run_call_succeeded c st R), replay_snoc, H.
  unfold stock_levels.
  destruct c as [now p | now pid | now pid delta reason]; simpl in *.
  - unfold add_product in *.
    destruct (dict_contains (id p) (products st)); [discriminate|].
    simpl. unfold replay_transaction. simpl. now rewrite dict_set_map.
  - unfold remove_product in *.
    destruct (dict_contains pid (products st)); [|discriminate].
    simpl. unfold replay_transaction. simpl. now rewrite dict_del_map.
  - unfold update_stock in *.
    destruct (dict_get pid (products st)) as [p|] eqn:G; [|discriminate].
    destruct (stock_quantity p + delta <? 0); [discriminate|].
    simpl. unfold replay_transaction. simpl.
    rewrite dict_get_map, G. simpl. now rewrite dict_set_map.
Qed.

(** X4. In a manager built from a new one by [add_product],
    [remove_product] and [update_stock] calls, the transaction log accounts
    for the stock: replaying the log (ADD opens a product with its quantity,
    REMOVE closes it, UPDATE adds its quantity) gives, key by key and in
    the order of the mapping, the stock of every stored product. *)
Theorem log_accounts_for_stock (calls : list call) :
  replay (transactions (run calls init))
  = stock_levels (products (run calls init)).
Proof.
  assert (G : forall cs st,
            replay (transactions st) = stock_levels (products st) ->
            replay (transactions (run cs st))
            = stock_levels (products (run cs st))).
  { induction cs as [|c cs IH]; intros st H; simpl.
    - exact H.
    - apply IH. now apply run_call_replay. }
  apply G. reflexivity.
Qed.

(** ** How the calls compose *)

(** X5. Adding a product whose id is not stored and then removing that id
    gives back the mapping as it was, with its order; both calls return
    true and the log has grown by an ADD and a REMOVE record. *)
Theorem add_then_remove (now1 now2 : datetime) (p : Product)
    (st : InventoryManager) :
  get_product (id p) st = None ->
  let r1 := add_product now1 p st in
  let r2 := remove_product now2 (id p) (snd r1) in
  fst r1 = true /\ fst r2 = true
  /\ products (snd r2) = products st
  /\ transactions (snd r2)
     = transactions st ++ [call_transaction (CallAdd now1 p);
                           call_transaction (CallRemove now2 (id p))].
Proof.
  unfold get_product. intros H. cbv zeta.
  assert (E1 : add_product now1 p st
               = (true, {| products := dict_set (id p) p (products st);
                           transactions := transactions st
                             ++ [call_transaction (CallAdd now1 p)] |})).
  { unfold add_product.
    now rewrite (proj2 (dict_contains_get_none _ _) H). }
  rewrite E1. cbn [fst snd].
  assert (E2 : forall ts,
            remove_product now2 (id p)
              {| products := dict_set (id p) p (products st);
                 transactions := ts |}
            = (true, {| products := products st;
                        transactions := ts
                          ++ [call_transaction (CallRemove now2 (id p))] |})).
  { intros ts. unfold remove_product, dict_contains. cbn [products].
    rewrite dict_get_set_same. cbn [negb].
    unfold _log_transaction. cbn [products transactions].
    now rewrite (dict_del_set_absent _ _ _ H). }
  rewrite E2. cbn [fst snd products transactions].
  rewrite <- app_assoc. repeat split.
Qed.

Lemma add_then_remove_witness :
  products
    (snd (remove_product noon "PROD003" (snd (add_product noon arnica one_product))))
  = products one_product.
Proof.
  apply (add_then_remove noon noon arnica one_product). reflexivity.
Defined.

Lemma update_stock_ok now pid delta reason st p :
  get_product pid st = Some p ->
  0 <= stock_quantity p + delta ->
  update_stock now pid delta reason st
  = (true, _log_transaction now "UPDATE" pid delta reason
             {| products := dict_set pid
                  (set_stock_quantity (stock_quantity p + delta) p)
                  (products st);
                transactions := transactions st |}).
Proof.
  unfold get_product, update_stock. intros -> H.
  destruct (Z.ltb_spec (stock_quantity p + delta) 0); [lia | reflexivity].
Qed.

Lemma set_stock_quantity_twice q1 q2 p :
  set_stock_quantity q2 (set_stock_quantity q1 p) = set_stock_quantity q2 p.
Proof. reflexivity. Qed.

Lemma set_stock_quantity_same p : set_stock_quantity (stock_quantity p) p = p.
Proof. destruct p; reflexivity. Qed.

(** X6. Two stock changes in a row on a stored product, each leaving a
    stock of at least 0, give the same mapping as the single change by
    their sum; and when the second would make the stock negative it is
    refused and the stock stays where the first left it. *)
Theorem update_stock_twice (now1 now2 : datetime) (pid : string)
    (d1 d2 : Z) (reason1 reason2 : string) (st : InventoryManager)
    (p : Product) :
  get_product pid st = Some p ->
  0 <= stock_quantity p + d1 ->
  let st1 := snd (update_stock now1 pid d1 reason1 st) in
  let r2 := update_stock now2 pid d2 reason2 st1 in
  (0 <= stock_quantity p + d1 + d2 ->
   fst r2 = true
   /\ products (snd r2)
      = products (snd (update_stock now1 pid (d1 + d2) reason1 st)))
  /\
  (stock_quantity p + d1 + d2 < 0 ->
   r2 = (false, st1)
   /\ get_product pid st1
      = Some (set_stock_quantity (stock_quantity p + d1) p)).
Proof.
  intros G H1. cbv zeta.
  rewrite (update_stock_ok now1 pid d1 reason1 st p G H1). cbn [snd].
  set (p1 := set_stock_quantity (stock_quantity p + d1) p).
  set (st1 := _log_transaction _ _ _ _ _ _).
  assert (G1 : get_product pid st1 = Some p1).
  { unfold get_product, st1. rewrite log_products. apply dict_get_set_same. }
  split.
  - intros H2.
    rewrite (update_stock_ok now2 pid d2 reason2 st1 p1 G1)
      by (simpl; lia).
    rewrite (update_stock_ok now1 pid (d1 + d2) reason1 st p G) by lia.
    cbn [fst snd]. split; [reflexivity|].
    rewrite !log_products. unfold st1. rewrite log_products.
    cbn [products]. rewrite dict_set_set. unfold p1.
    rewrite set_stock_quantity_twice. simpl stock_quantity.
    now rewrite Z.add_assoc.
  - intros H2. split; [|exact G1].
    unfold update_stock. unfold get_product in G1. rewrite G1.
    destruct (Z.ltb_spec (stock_quantity p1 + d2) 0) as [_|C];
      [reflexivity|]. simpl in C. lia.
Qed.

Lemma update_stock_twice_witness :
  fst (update_stock noon "PROD001" (-20) ""
         (snd (update_stock noon "PROD001" (-30) "" one_product))) = true
  /\ fst (update_stock noon "PROD001" (-21) ""
            (snd (update_stock noon "PROD001" (-30) "" one_product))) = false.
Proof.
  split.
  - destruct (update_stock_twice noon noon "PROD001" (-30) (-20) "" ""
                one_product vitamina eq_refl) as [H _];
      [simpl; lia|]. apply H. simpl; lia.
  - destruct (update_stock_twice noon noon "PROD001" (-30) (-21) "" ""
                one_product vitamina eq_refl) as [_ H];
      [simpl; lia|]. destruct H as [E _]; [simpl; lia|]. now rewrite E.
Defined.

Lemma run_call_update_keeps now pid delta reason st :
  dict_keys (products (run_call (CallUpdate now pid delta reason) st))
  = dict_keys (products st)
  /\ forall k p, get_product k st = Some p ->
       exists q, get_product k (run_call (CallUpdate now pid delta reason) st)
                 = Some (set_stock_quantity q p).
Proof.
  simpl. unfold update_stock, get_product.
  destruct (dict_get pid (products st)) as [p0|] eqn:G.
  2:{ split; [reflexivity|]. intros k p H. exists (stock_quantity p).
      simpl. now rewrite set_stock_quantity_same. }
  destruct (stock_quantity p0 + delta <? 0).
  { split; [reflexivity|]. intros k p H. exists (stock_quantity p).
    simpl. now rewrite set_stock_quantity_same. }
  simpl. split.
  - apply dict_keys_set_present. congruence.
  - intros k p H. destruct (String.eqb_spec k pid) as [->|Hne].
    + rewrite dict_get_set_same. rewrite G in H. injection H as <-.
      now exists (stock_quantity p0 + delta).
    + rewrite dict_get_set_other by assumption. rewrite H.
      exists (stock_quantity p). now rewrite set_stock_quantity_same.
Qed.

(** X7. [update_stock] touches nothing but the stock: after any sequence
    of [update_stock] calls the mapping has the same keys in the same order,
    and every product is the one stored before except, at most, for its
    [stock_quantity]. *)
Theorem update_stock_changes_stock_only (calls : list call)
    (st : InventoryManager) :
  only_updates calls ->
  dict_keys (products (run calls st)) = dict_keys (products st)
  /\ forall k p, get_product k st = Some p ->
       exists q, get_product k (run calls st) = Some (set_stock_quantity q p).
Proof.
  revert st. induction calls as [|c calls IH]; intros st U.
  - simpl. split; [reflexivity|]. intros k p H. exists (stock_quantity p).
    now rewrite set_stock_quantity_same.
  - inversion U as [|? ? Hc Hr]; subst.
    destruct c as [| |now pid delta reason]; try contradiction.
    destruct (run_call_update_keeps now pid delta reason st) as [K1 P1].
    destruct (IH (run_call (CallUpdate now pid delta reason) st) Hr)
      as [K2 P2].
    change (run (CallUpdate now pid delta reason :: calls) st)
      with (run calls (run_call (CallUpdate now pid delta reason) st)).
    split.
    + now rewrite K2.
    + intros k p H. destruct (P1 k p H) as [q1 H1].
      destruct (P2 k _ H1) as [q2 H2]. exists q2.
      now rewrite H2, set_stock_quantity_twice.
Qed.

Lemma update_stock_changes_stock_only_witness :
  dict_keys
    (products (run [CallUpdate noon "PROD001" (-30) "";
                    CallUpdate noon "PROD001" 5 "Compra"] one_product))
  = dict_keys (products one_product).
Proof.
  apply (update_stock_changes_stock_only
           [CallUpdate noon "PROD001" (-30) "";
            CallUpdate noon "PROD001" 5 "Compra"] one_product).
  repeat constructor.
Defined.

(** X8. After a successful [update_stock] the product is in the low-stock
    listing exactly when its new stock is at most its minimum, which is the
    condition of the low-stock alert. *)
Theorem low_stock_after_update (now : datetime) (pid : string) (delta : Z)
    (reason : string) (st : InventoryManager) (p : Product) :
  get_product pid st = Some p ->
  0 <= stock_quantity p + delta ->
  let st' := snd (update_stock now pid delta reason st) in
  let p' := set_stock_quantity (stock_quantity p + delta) p in
  get_product pid st' = Some p'
  /\ (In p' (get_low_stock_products st') <->
      stock_quantity p + delta <= min_stock p).
Proof.
  intros G H. cbv zeta. rewrite (update_stock_ok now pid delta reason st p G H).
  cbn [snd]. unfold get_product. rewrite log_products. cbn [products].
  split; [apply dict_get_set_same|].
  unfold get_low_stock_products. rewrite log_products. cbn [products].
  rewrite filter_In. unfold is_low_stock. simpl.
  rewrite Z.leb_le. split; [tauto|]. intros L. split; [|exact L].
  apply (dict_get_values pid). apply dict_get_set_same.
Qed.

Lemma low_stock_after_update_witness :
  In (set_stock_quantity 5 vitamina)
     (get_low_stock_products
        (snd (update_stock noon "PROD001" (-45) "Venta" one_product))).
Proof.
  destruct (low_stock_after_update noon "PROD001" (-45) "Venta" one_product
              vitamina eq_refl) as [_ H]; [simpl; lia|].
  apply H. simpl. lia.
Defined.

(** ** Expired, near expiration, or neither *)

Lemma days_until_expiration_some now p e :
  expiration_date p = Some e ->
  days_until_expiration now p = Some ((instant e - instant now) / US_PER_DAY).
Proof.
  intros He. unfold days_until_expiration. rewrite He. cbv zeta.
  now rewrite datetime_sub_days.
Qed.

Lemma is_expired_instant now p e :
  valid_datetime now = true -> valid_datetime e = true ->
  expiration_date p = Some e ->
  (is_expired now p = true <-> instant e < instant now).
Proof.
  intros Vn Ve He. unfold is_expired. rewrite He.
  apply datetime_gt_instant; assumption.
Qed.

Lemma is_expired_negative_days now p :
  valid_datetime now = true ->
  wf_product p ->
  (is_expired now p = true <->
   exists d, days_until_expiration now p = Some d /\ d < 0).
Proof.
  intros Vn Wp. destruct (expiration_date p) as [e|] eqn:He.
  - rewrite (is_expired_instant now p e Vn (Wp e He) He).
    rewrite (days_until_expiration_some now p e He).
    unfold US_PER_DAY. split.
    + intros L. eexists. split; [reflexivity|].
      Z.div_mod_to_equations. lia.
    + intros (d & E & L). injection E as <-.
      Z.div_mod_to_equations. lia.
  - unfold is_expired, days_until_expiration. rewrite He. split.
    + discriminate.
    + intros (d & E & _). discriminate.
Qed.

Lemma expired_not_near now p threshold :
  valid_datetime now = true ->
  wf_product p ->
  is_expired now p = true -> is_near_expiration now p threshold = false.
Proof.
  intros Vn Wp X.
  apply (is_expired_negative_days now p Vn Wp) in X as (d & E & L).
  unfold is_near_expiration. rewrite E.
  destruct (Z.ltb_spec 0 d); [lia | reflexivity].
Qed.

(** X9. For a clock reading and a product whose expiration date, if set,
    is a datetime: the product is expired exactly when its days until
    expiration are negative.  A product at 0 days is therefore not expired,
    and an expired product is near expiration for no threshold. *)
Theorem expired_iff_negative_days (now : datetime) (p : Product) :
  valid_datetime now = true ->
  wf_product p ->
  (is_expired now p = true <->
   exists d, days_until_expiration now p = Some d /\ d < 0)
  /\ (forall threshold,
        is_expired now p = true -> is_near_expiration now p threshold = false).
Proof.
  intros Vn Wp. split.
  - now apply is_expired_negative_days.
  - intros threshold. now apply expired_not_near.
Qed.

Lemma expired_iff_negative_days_witness :
  is_near_expiration noon expired_yesterday 30 = false.
Proof.
  assert (W : wf_product expired_yesterday).
  { intros e E. injection E as <-. reflexivity. }
  apply (proj2 (expired_iff_negative_days noon expired_yesterday eq_refl W)).
  reflexivity.
Defined.

(** X10. Read at the same clock, the expired listing and the
    near-expiration listing of a manager whose expiration dates are
    datetimes share no product, whatever the threshold. *)
Theorem expired_and_near_listings_disjoint (now : datetime)
    (threshold : Z) (st : InventoryManager) :
  valid_datetime now = true ->
  Forall wf_product (dict_values (products st)) ->
  forall p, In p (get_expired_products now st) ->
            ~ In p (get_near_expiration_products now threshold st).
Proof.
  intros Vn W p Ie In_.
  unfold get_expired_products in Ie. apply filter_In in Ie as [Ip X].
  unfold get_near_expiration_products in In_.
  apply filter_In in In_ as [_ N].
  rewrite Forall_forall in W.
  rewrite (expired_not_near now p threshold Vn (W p Ip) X) in N.
  discriminate.
Qed.

Lemma expired_and_near_listings_disjoint_witness :
  ~ In expired_yesterday
      (get_near_expiration_products noon 30
         (snd (add_product noon expired_yesterday init))).
Proof.
  apply (expired_and_near_listings_disjoint noon 30
           (snd (add_product noon expired_yesterday init)) eq_refl).
  - repeat constructor. intros e E. injection E as <-. reflexivity.
  - simpl. now left.
Defined.

(** X11. The near-expiration listing grows with the threshold: a product
    listed for a threshold is listed for every larger one; and for a
    threshold of 0 or less the listing is empty. *)
Theorem near_expiration_threshold (now : datetime) (st : InventoryManager) :
  (forall t1 t2 p, t1 <= t2 ->
     In p (get_near_expiration_products now t1 st) ->
     In p (get_near_expiration_products now t2 st))
  /\
  (forall t, t <= 0 -> get_near_expiration_products now t st = []).
Proof.
  unfold get_near_expiration_products. split.
  - intros t1 t2 p L I. apply filter_In in I as [I N].
    apply filter_In. split; [assumption|].
    unfold is_near_expiration in *.
    destruct (days_until_expiration now p) as [d|]; [|discriminate].
    apply andb_true_iff in N as [N1 N2].
    apply Z.leb_le in N2. rewrite N1. apply Z.leb_le. lia.
  - intros t L. induction (dict_values (products st)) as [|p l IH]; simpl.
    + reflexivity.
    + rewrite IH. unfold is_near_expiration.
      destruct (days_until_expiration now p) as [d|]; [|reflexivity].
      destruct (Z.ltb_spec 0 d); simpl; [|reflexivity].
      destruct (Z.leb_spec d t); [lia | reflexivity].
Qed.

Lemma near_expiration_threshold_witness :
  get_near_expiration_products noon 0
    (snd (add_product noon expires_in_ten_days init)) = [].
Proof.
  apply (proj2 (near_expiration_threshold noon
                  (snd (add_product noon expires_in_ten_days init)))).
  lia.
Defined.

(** ** Categories *)

Lemma ProductCategory_eqb_eq a b : ProductCategory_eqb a b = true <-> a = b.
Proof. destruct a, b; simpl; split; intros H; congruence. Qed.

(** X12. The category listings split the stored products: a product is
    in the listing of a category exactly when it is stored and has that
    category, and the sizes of the ten listings add up to the number of
    stored products. *)
Theorem categories_partition (st : InventoryManager) :
  (forall c p, In p (get_products_by_category c st) <->
               In p (dict_values (products st)) /\ category p = c)
  /\
  list_sum (map (fun c => List.length (get_products_by_category c st))
                categories)
  = List.length (dict_values (products st)).
Proof.
  unfold get_products_by_category. split.
  - intros c p. now rewrite filter_In, ProductCategory_eqb_eq.
  - unfold categories, list_sum. cbn [map fold_right].
    induction (dict_values (products st)) as [|p l IH].
    + reflexivity.
    + cbn [filter]. destruct (category p); cbn [ProductCategory_eqb];
        cbn [List.length]; lia.
Qed.

(** ** Search and case *)

Lemma string_app_nil_r (s : string) : (s ++ "")%string = s.
Proof. induction s as [|c s IH]; simpl; [reflexivity | now rewrite IH]. Qed.

Lemma str_in_refl s : str_in s s = true.
Proof.
  apply str_in_spec. exists ""%string, ""%string.
  simpl. now rewrite string_app_nil_r.
Qed.

Lemma lower_char_idem c : lower_char (lower_char c) = lower_char c.
Proof.
  destruct c as [[] [] [] [] [] [] [] []]; reflexivity.
Qed.

Lemma lower_idem s : lower (lower s) = lower s.
Proof.
  induction s as [|c s IH]; simpl; [reflexivity|].
  now rewrite lower_char_idem, IH.
Qed.

(** X13. [search_products] does not see the case of the query: two
    queries with the same lowercase form give the same result, so a query
    and its lowercase form do; and searching for the name or for the
    description of a stored product, in any case, finds that product. *)
Theorem search_ignores_case (st : InventoryManager) :
  (forall q1 q2, lower q1 = lower q2 ->
     search_products q1 st = search_products q2 st)
  /\ (forall q, search_products (lower q) st = search_products q st)
  /\ (forall p q, In p (dict_values (products st)) ->
        lower q = lower (name p) \/ lower q = lower (description p) ->
        In p (search_products q st)).
Proof.
  unfold search_products. repeat split.
  - intros q1 q2 E. cbv zeta. now rewrite E.
  - intros q. cbv zeta. now rewrite lower_idem.
  - intros p q I [E|E]; cbv zeta; rewrite E; apply filter_In;
      (split; [assumption|]); rewrite str_in_refl.
    + reflexivity.
    + apply orb_true_r.
Qed.

Lemma search_ignores_case_witness :
  In vitamina (search_products "VITAMINA C 1000MG" one_product).
Proof.
  apply (proj2 (proj2 (search_ignores_case one_product))).
  - simpl. now left.
  - left. reflexivity.
Defined.

(** ** More on loading *)

(** The run of [load_from_file] on a document, by cases on what the
    conversions give. *)
Lemma load_from_file_document fs filename data st :
  json_load fs filename = Ok data ->
  load_from_file fs filename st
  = match obind (json_get data "products" (JList [])) json_iter with
    | Ok items =>
        match for_each items load_item
                {| products := []; transactions := transactions st |} with
        | (Ok _, st1) =>
            match obind (json_get data "transactions" (JList [])) as_list with
            | Ok ts => (Ok true, {| products := products st1;
                                    transactions := ts |})
            | Raise _ => (Ok false, st1)
            | Unmodelled => (Unmodelled, st1)
            end
        | (Raise _, st1) => (Ok false, st1)
        | (Unmodelled, st1) => (Unmodelled, st1)
        end
    | Raise _ =>
        (Ok false, {| products := []; transactions := transactions st |})
    | Unmodelled =>
        (Unmodelled, {| products := []; transactions := transactions st |})
    end.
Proof.
  intros J. unfold load_from_file, try_except. unfold mbind at 1.
  unfold lift at 1. rewrite J.
  unfold mbind at 1. unfold set_products at 1.
  unfold mbind at 1. unfold lift at 1.
  destruct (obind (json_get data "products" (JList [])) _) as [items|e|].
  2:{ destruct e; reflexivity. }
  2:{ reflexivity. }
  unfold mbind at 1.
  destruct (for_each items load_item _) as [[u|e|] st1].
  2:{ destruct e; reflexivity. }
  2:{ reflexivity. }
  unfold mbind, lift, set_transactions, mret.
  destruct (obind (json_get data "transactions" (JList [])) _) as [ts|e|].
  - reflexivity.
  - destruct e; reflexivity.
  - reflexivity.
Qed.

Lemma for_each_load_item_stops good : forall acc ts bad rest e,
  Forall wf_product good ->
  load_product bad = Raise e ->
  for_each (map to_dict good ++ bad :: rest) load_item
    {| products := acc; transactions := ts |}
  = (Raise e, {| products := fold_left (fun d p => dict_set (id p) p d)
                               good acc;
                 transactions := ts |}).
Proof.
  induction good as [|p good IH]; intros acc ts bad rest e W B.
  - simpl. unfold mbind at 1. unfold load_item at 1, mbind, lift.
    now rewrite B.
  - inversion W as [|? ? Wp Wg]; subst.
    simpl map. simpl app. simpl for_each. unfold mbind at 1.
    unfold load_item at 1, mbind, lift, get_products, set_products.
    rewrite (load_product_to_dict p Wp). simpl.
    now apply IH.
Qed.

(** X16. When the products of a document are the dictionaries of some
    products followed by an item whose conversion raises, [load_from_file]
    returns false and keeps the transactions, and the mapping it leaves
    holds the products listed before that item, stored in turn, and nothing
    of what the manager held before. *)
Theorem load_stops_at_bad_item (fs : filesystem) (filename : string)
    (st : InventoryManager) (good : list Product) (bad : json)
    (rest transaction_items : list json) (e : exn) :
  fs filename
  = Some (Document (document (map to_dict good ++ bad :: rest)
                             transaction_items)) ->
  Forall wf_product good ->
  load_product bad = Raise e ->
  load_from_file fs filename st
  = (Ok false, {| products := dict_of_products good;
                  transactions := transactions st |}).
Proof.
  intros F W B.
  assert (J : json_load fs filename
              = Ok (document (map to_dict good ++ bad :: rest)
                             transaction_items)).
  { unfold json_load. now rewrite F. }
  rewrite (load_from_file_document fs filename _ st J).
  unfold document. cbn [json_get dict_get String.eqb Ascii.eqb Bool.eqb
                         obind json_iter].
  rewrite (for_each_load_item_stops good [] (transactions st) bad rest e W B).
  reflexivity.
Qed.

Lemma load_stops_at_bad_item_witness :
  load_from_file malformed_files "inventory.json" one_product
  = (Ok false, {| products := dict_of_products [arnica];
                  transactions := transactions one_product |}).
Proof.
  apply (load_stops_at_bad_item malformed_files "inventory.json" one_product
           [arnica] unknown_category_item [] [] ValueError).
  - reflexivity.
  - repeat constructor. intros e E. discriminate E.
  - reflexivity.
Defined.

(** X17. Edge shapes of the document.  A JSON value that is no object,
    or an object whose [products] is null, a boolean or a number, makes
    [load_from_file] return false with the mapping emptied and the
    transactions kept; an object with neither [products] nor
    [transactions] loads as a new, empty manager. *)
Theorem load_document_shapes (fs : filesystem) (filename : string)
    (data : json) (st : InventoryManager) :
  json_load fs filename = Ok data ->
  ((forall o, data <> JObj o) ->
   load_from_file fs filename st
   = (Ok false, {| products := []; transactions := transactions st |}))
  /\
  (forall o v, data = JObj o -> dict_get "products" o = Some v ->
     (v = JNull \/ (exists b, v = JBool b) \/ (exists n, v = JNum n)) ->
     load_from_file fs filename st
     = (Ok false, {| products := []; transactions := transactions st |}))
  /\
  (forall o, data = JObj o -> dict_get "products" o = None ->
     dict_get "transactions" o = None ->
     load_from_file fs filename st = (Ok true, init)).
Proof.
  intros J. rewrite (load_from_file_document fs filename data st J).
  repeat split.
  - intros N. destruct data as [| | | | |o]; try reflexivity.
    now destruct (N o).
  - intros o v -> G [->|[[b ->]|[n ->]]]; simpl; rewrite G; reflexivity.
  - intros o -> G1 G2. simpl. rewrite G1. simpl. rewrite G2. reflexivity.
Qed.

Lemma load_document_shapes_witness :
  load_from_file (write_file no_files "inventory.json" (Document (JList [])))
    "inventory.json" one_product
  = (Ok false, {| products := []; transactions := transactions one_product |})
  /\ load_from_file (write_file no_files "inventory.json" (Document (JObj [])))
       "inventory.json" one_product
     = (Ok true, init).
Proof.
  split.
  - apply (load_document_shapes
             (write_file no_files "inventory.json" (Document (JList [])))
             "inventory.json" (JList []) one_product eq_refl).
    discriminate.
  - apply (proj2 (proj2 (load_document_shapes
             (write_file no_files "inventory.json" (Document (JObj [])))
             "inventory.json" (JObj []) one_product eq_refl)) []);
      reflexivity.
Defined.

Lemma find_app_last {A : Type} (f : A -> bool) (l : list A) (x : A) :
  find f (l ++ [x])
  = match find f l with
    | Some y => Some y
    | None => if f x then Some x else None
    end.
Proof.
  induction l as [|a l IH]; simpl.
  - reflexivity.
  - destruct (f a); [reflexivity | exact IH].
Qed.

Lemma dict_get_fold_set l : forall acc k,
  dict_get k (fold_left (fun d p => dict_set (id p) p d) l acc)
  = match find (fun p => String.eqb (id p) k) (rev l) with
    | Some p => Some p
    | None => dict_get k acc
    end.
Proof.
  induction l as [|p l IH]; intros acc k.
  - reflexivity.
  - simpl fold_left. rewrite IH. simpl rev. rewrite find_app_last.
    destruct (find _ (rev l)); [reflexivity|].
    destruct (String.eqb_spec (id p) k) as [<-|Hne].
    + apply dict_get_set_same.
    + apply dict_get_set_other. congruence.
Qed.

(** X18. A document that lists the dictionaries of any products, ids
    repeated or not, loads with success: the log becomes the transactions
    of the document, and under each id the manager holds the last product
    the document lists with that id. *)
Theorem load_keeps_last_of_each_id (fs : filesystem) (filename : string)
    (st : InventoryManager) (listed : list Product)
    (transaction_items : list json) :
  fs filename
  = Some (Document (document (map to_dict listed) transaction_items)) ->
  Forall wf_product listed ->
  load_from_file fs filename st
  = (Ok true, {| products := dict_of_products listed;
                 transactions := transaction_items |})
  /\ forall k,
       get_product k (snd (load_from_file fs filename st))
       = find (fun p => String.eqb (id p) k) (rev listed).
Proof.
  intros F W.
  assert (J : json_load fs filename
              = Ok (document (map to_dict listed) transaction_items)).
  { unfold json_load. now rewrite F. }
  assert (E : load_from_file fs filename st
              = (Ok true, {| products := dict_of_products listed;
                             transactions := transaction_items |})).
  { rewrite (load_from_file_document fs filename _ st J).
    unfold document. cbn [json_get dict_get String.eqb Ascii.eqb Bool.eqb
                           obind json_iter as_list].
    now rewrite (for_each_load_item listed [] (transactions st) W). }
  split; [exact E|].
  intros k. rewrite E. unfold get_product, dict_of_products. cbn [snd products].
  rewrite dict_get_fold_set. now destruct (find _ (rev listed)).
Qed.

Lemma load_keeps_last_of_each_id_witness :
  get_product "PROD003"
    (snd (load_from_file
            (write_file no_files "inventory.json"
               (Document (document
                  (map to_dict [arnica; set_stock_quantity 7 arnica]) [])))
            "inventory.json" one_product))
  = Some (set_stock_quantity 7 arnica).
Proof.
  destruct (load_keeps_last_of_each_id
              (write_file no_files "inventory.json"
                 (Document (document
                    (map to_dict [arnica; set_stock_quantity 7 arnica]) [])))
              "inventory.json" one_product
              [arnica; set_stock_quantity 7 arnica] [] eq_refl) as [_ H].
  - repeat constructor; intros e E; discriminate E.
  - rewrite H. reflexivity.
Defined.

(** X19. The dictionary of a product loses nothing: the conversions of
    the loading loop applied to [to_dict] of a product give the product
    back, so two products with equal dictionaries are equal (expiration
    dates being datetimes). *)
Theorem to_dict_roundtrip (p : Product) :
  wf_product p ->
  load_product (to_dict p) = Ok p
  /\ forall p', wf_product p' -> to_dict p' = to_dict p -> p' = p.
Proof.
  intros W. split; [now apply load_product_to_dict|].
  intros p' W' E.
  pose proof (load_product_to_dict p W) as H.
  pose proof (load_product_to_dict p' W') as H'.
  rewrite E in H'. congruence.
Qed.

Lemma to_dict_roundtrip_witness :
  load_product (to_dict vitamina) = Ok vitamina.
Proof.
  apply (to_dict_roundtrip vitamina).
  intros e E. injection E as <-. reflexivity.
Defined.

(** ** The statistics of the report *)

Lemma fold_add_start (l : list Z) (a : Z) :
  fold_left Z.add l a = a + fold_left Z.add l 0.
Proof.
  revert a. induction l as [|x l IH]; intros a; simpl.
  - lia.
  - rewrite IH, (IH x). lia.
Qed.

Lemma total_stock_cons k p d ts :
  total_stock {| products := (k, p) :: d; transactions := ts |}
  = stock_quantity p + total_stock {| products := d; transactions := ts |}.
Proof. unfold total_stock. simpl. now rewrite fold_add_start. Qed.

Lemma total_stock_set k p d ts :
  total_stock {| products := dict_set k p d; transactions := ts |}
  = total_stock {| products := d; transactions := ts |}
    - match dict_get k d with
      | Some p0 => stock_quantity p0
      | None => 0
      end
    + stock_quantity p.
Proof.
  induction d as [|[k0 p0] r IH]; simpl.
  - unfold total_stock. simpl. lia.
  - destruct (String.eqb k k0).
    + rewrite !total_stock_cons. lia.
    + rewrite !total_stock_cons, IH. lia.
Qed.

Lemma total_stock_del k d ts :
  total_stock {| products := dict_del k d; transactions := ts |}
  = total_stock {| products := d; transactions := ts |}
    - match dict_get k d with
      | Some p0 => stock_quantity p0
      | None => 0
      end.
Proof.
  induction d as [|[k0 p0] r IH]; simpl.
  - unfold total_stock. simpl. lia.
  - destruct (String.eqb k k0).
    + rewrite !total_stock_cons. lia.
    + rewrite !total_stock_cons, IH. lia.
Qed.

Lemma total_stock_log now action pid q reason st :
  total_stock (_log_transaction now action pid q reason st) = total_stock st.
Proof. reflexivity. Qed.

Lemma total_stock_eta st ts :
  total_stock {| products := products st; transactions := ts |}
  = total_stock st.
Proof. reflexivity. Qed.

(** X20. The total stock the report prints follows the calls: a
    successful [add_product] raises it by the stock of the product, a
    successful [update_stock] by the change, and a successful
    [remove_product] lowers it by the stock of the product removed. *)
Theorem total_stock_follows_calls :
  (forall now p st,
     fst (add_product now p st) = true ->
     total_stock (snd (add_product now p st))
     = total_stock st + stock_quantity p)
  /\
  (forall now pid delta reason st,
     fst (update_stock now pid delta reason st) = true ->
     total_stock (snd (update_stock now pid delta reason st))
     = total_stock st + delta)
  /\
  (forall now pid st p,
     get_product pid st = Some p ->
     total_stock (snd (remove_product now pid st))
     = total_stock st - stock_quantity p).
Proof.
  repeat split.
  - intros now p st. unfold add_product.
    destruct (dict_contains (id p) (products st)) eqn:C; [discriminate|].
    intros _. cbn [snd]. rewrite total_stock_log, total_stock_set.
    apply dict_contains_get_none in C. rewrite C, total_stock_eta. lia.
  - intros now pid delta reason st. unfold update_stock.
    destruct (dict_get pid (products st)) as [p|] eqn:G; [|discriminate].
    destruct (stock_quantity p + delta <? 0); [discriminate|].
    intros _. cbn [snd]. rewrite total_stock_log, total_stock_set.
    rewrite G, total_stock_eta. simpl. lia.
  - intros now pid st p G. unfold get_product in G.
    unfold remove_product, dict_contains. rewrite G. cbn [negb snd].
    rewrite total_stock_log, total_stock_del. now rewrite G, total_stock_eta.
Qed.

Lemma total_stock_follows_calls_witness :
  total_stock (snd (update_stock noon "PROD001" (-45) "" one_product))
  = total_stock one_product + -45.
Proof.
  apply (proj1 (proj2 total_stock_follows_calls)). reflexivity.
Defined.

Lemma length_filters_disjoint {A : Type} (f g : A -> bool) (l : list A) :
  (forall x, In x l -> f x = true -> g x = false) ->
  (List.length (filter f l) + List.length (filter g l) <= List.length l)%nat.
Proof.
  induction l as [|x l IH]; intros H; simpl.
  - lia.
  - assert (IH' := IH (fun y Hy => H y (or_intror Hy))).
    pose proof (H x (or_introl eq_refl)) as Hx.
    destruct (f x); [rewrite Hx by reflexivity|]; simpl;
      [lia | destruct (g x); simpl; lia].
Qed.

Lemma fold_add_nonneg (l : list Z) :
  Forall (fun x => 0 <= x) l -> 0 <= fold_left Z.add l 0.
Proof.
  induction l as [|x l IH]; intros H; simpl.
  - lia.
  - inversion H; subst. rewrite fold_add_start. specialize (IH H3). lia.
Qed.

(** X21. The statistics of the report fit together: the count of
    low-stock products is at most the number of products; for a manager
    whose expiration dates are datetimes the counts of expired and of
    near-expiration products together are at most the number of products,
    no product being counted in both; and when no stored stock is negative
    the total stock is not negative. *)
Theorem report_statistics_consistent (now : datetime)
    (st : InventoryManager) :
  valid_datetime now = true ->
  Forall wf_product (dict_values (products st)) ->
  (low_stock st <= total_products st)%nat
  /\ (expired now st + near_expiration now st <= total_products st)%nat
  /\ (stock_nonneg st -> 0 <= total_stock st).
Proof.
  intros Vn W. unfold low_stock, expired, near_expiration, total_products.
  assert (L : List.length (products st)
              = List.length (dict_values (products st))).
  { unfold dict_values. now rewrite length_map. }
  rewrite L. repeat split.
  - unfold get_low_stock_products. apply filter_length_le.
  - unfold get_expired_products, get_near_expiration_products.
    apply length_filters_disjoint. intros p I X.
    rewrite Forall_forall in W.
    exact (expired_not_near now p 30 Vn (W p I) X).
  - intros N. unfold total_stock. apply fold_add_nonneg.
    unfold stock_nonneg in N. now apply Forall_map.
Qed.

Lemma report_statistics_consistent_witness :
  (expired noon one_product + near_expiration noon one_product
   <= total_products one_product)%nat.
Proof.
  apply (report_statistics_consistent noon one_product eq_refl).
  repeat constructor. intros e E. injection E as <-. reflexivity.
Defined.

(** ** The text of the report *)

Lemma str_app_assoc (a b c : string) :
  ((a ++ b) ++ c)%string = (a ++ (b ++ c))%string.
Proof. induction a as [|x a IH]; simpl; [reflexivity | now rewrite IH]. Qed.

Lemma str_in_app_r q s suffix :
  str_in q s = true -> str_in q (s ++ suffix) = true.
Proof.
  rewrite !str_in_spec. intros (pre & post & ->).
  exists pre, (post ++ suffix)%string. now rewrite !str_app_assoc.
Qed.

Lemma str_in_app_l q s prefix :
  str_in q s = true -> str_in q (prefix ++ s) = true.
Proof.
  rewrite !str_in_spec. intros (pre & post & ->).
  exists (prefix ++ pre)%string, post. now rewrite !str_app_assoc.
Qed.

Lemma fold_append_lines {A : Type} (line : A -> string) (l : list A) :
  forall r,
    fold_left (fun report x => (report ++ line x)%string) l r
    = (r ++ fold_right (fun x rest => (line x ++ rest)%string) "" l)%string.
Proof.
  induction l as [|x l IH]; intros r; simpl.
  - now rewrite string_app_nil_r.
  - now rewrite IH, str_app_assoc.
Qed.

Lemma str_in_lines {A : Type} (line : A -> string) (l : list A) (x : A) :
  In x l ->
  str_in (line x) (fold_right (fun y rest => (line y ++ rest)%string) "" l)
  = true.
Proof.
  induction l as [|y l IH]; simpl; [tauto|].
  intros [->|I].
  - apply str_in_app_r, str_in_refl.
  - apply str_in_app_l. now apply IH.
Qed.

(** A section of the report: nothing when the listing is empty, else the
    text so far, a title and one line per listed item. *)
Lemma section_lists_items {A : Type} (line : A -> string) (l : list A)
    (heading report : string) (x : A) :
  In x l ->
  str_in (line x)
    (if (0 <? List.length l)%nat
     then fold_left (fun r y => (r ++ line y)%string) l
            (report ++ heading)%string
     else report)
  = true.
Proof.
  intros I. destruct l as [|y l]; [contradiction|].
  cbn [List.length Nat.ltb Nat.leb]. rewrite fold_append_lines.
  apply str_in_app_l. now apply str_in_lines.
Qed.

Lemma section_keeps_text {A : Type} (line : A -> string) (l : list A)
    (heading report q : string) :
  str_in q report = true ->
  str_in q
    (if (0 <? List.length l)%nat
     then fold_left (fun r y => (r ++ line y)%string) l
            (report ++ heading)%string
     else report)
  = true.
Proof.
  intros H. destruct (0 <? List.length l)%nat; [|exact H].
  rewrite fold_append_lines, str_app_assoc. now apply str_in_app_r.
Qed.

(** X22. No alert is left out of the report: the text holds the line of
    every low-stock product, of every product that is near expiration
    within 30 days, and of every expired product. *)
Theorem report_lists_every_alert (now : datetime) (st : InventoryManager)
    (p : Product) :
  (In p (get_low_stock_products st) ->
   str_in (low_stock_line p) (generate_stock_report now st) = true)
  /\ (In p (get_near_expiration_products now 30 st) ->
      str_in (near_expiration_line now p) (generate_stock_report now st)
      = true)
  /\ (In p (get_expired_products now st) ->
      str_in (expired_line p) (generate_stock_report now st) = true).
Proof.
  unfold generate_stock_report, low_stock, near_expiration, expired.
  cbv zeta.
  set (r0 := fold_left _ categories _).
  repeat split; intros I; apply str_in_app_r.
  - apply section_keeps_text, section_keeps_text.
    now apply section_lists_items.
  - apply section_keeps_text. now apply section_lists_items.
  - now apply section_lists_items.
Qed.

Lemma report_lists_every_alert_witness :
  str_in (low_stock_line (set_stock_quantity 5 vitamina))
    (generate_stock_report noon
       (snd (update_stock noon "PROD001" (-45) "Venta" one_product)))
  = true.
Proof.
  apply (proj1 (report_lists_every_alert noon
                  (snd (update_stock noon "PROD001" (-45) "Venta" one_product))
                  (set_stock_quantity 5 vitamina))).
  simpl. now left.
Defined.

(** ** Saving what the calls built *)

(** X23. Whatever sequence of calls built a manager from a new one (the
    products added carrying datetimes), saving it and loading the file
    into any manager, empty or not, returns true and gives exactly the
    manager that was saved. *)
Theorem saved_run_reloads (calls : list call) (fs : filesystem)
    (filename : string) (other : InventoryManager) :
  adds_wf calls ->
  load_from_file (save_to_file fs filename (run calls init)) filename other
  = (Ok true, run calls init).
Proof.
  intros A.
  pose proof (run_wf calls init A wf_products_nil) as W.
  pose proof (wf_products_values _ W) as V.
  destruct W as (K & N & _).
  set (st := run calls init) in *.
  assert (J : json_load (save_to_file fs filename st) filename
              = Ok (document (map to_dict (dict_values (products st)))
                             (transactions st))).
  { unfold json_load, save_to_file, write_file.
    now rewrite String.eqb_refl. }
  rewrite (load_from_file_document _ filename _ other J).
  unfold document. cbn [json_get dict_get String.eqb Ascii.eqb Bool.eqb
                         obind json_iter as_list].
  rewrite (for_each_load_item _ [] (transactions other) V).
  rewrite (fold_dict_set_wf (products st) [] K N).
  destruct st as [ps ts]. reflexivity.
Qed.

Lemma saved_run_reloads_witness :
  load_from_file
    (save_to_file no_files "inventory.json"
       (run [CallAdd noon vitamina; CallUpdate noon "PROD001" (-45) "Venta";
             CallAdd noon arnica] init))
    "inventory.json" one_product
  = (Ok true,
     run [CallAdd noon vitamina; CallUpdate noon "PROD001" (-45) "Venta";
          CallAdd noon arnica] init).
Proof.
  apply (saved_run_reloads
           [CallAdd noon vitamina; CallUpdate noon "PROD001" (-45) "Venta";
            CallAdd noon arnica] no_files "inventory.json" one_product).
  repeat constructor.
  - intros e E. injection E as <-. reflexivity.
  - intros e E. discriminate E.
Defined.

(** X24. The mapping stays a dictionary keyed by id: in a manager built
    from a new one by any calls (the products added carrying datetimes)
    every product is stored under its own id and no id is stored twice;
    and the calls keep that shape from any manager that has it. *)
Theorem calls_keep_ids_unique (calls : list call) :
  adds_wf calls ->
  wf_products (products (run calls init))
  /\ forall st, wf_products (products st) ->
                wf_products (products (run calls st)).
Proof.
  intros A. split.
  - apply run_wf; [exact A | apply wf_products_nil].
  - intros st W. now apply run_wf.
Qed.

Lemma calls_keep_ids_unique_witness :
  wf_products
    (products (run [CallAdd noon vitamina; CallAdd noon vitamina;
                    CallRemove noon "PROD003"] init)).
Proof.
  assert (W : wf_product vitamina).
  { intros e E. injection E as <-. reflexivity. }
  assert (A : adds_wf [CallAdd noon vitamina; CallAdd noon vitamina;
                       CallRemove noon "PROD003"]).
  { unfold adds_wf. repeat apply Forall_cons; try exact W; try exact I.
    apply Forall_nil. }
  exact (proj1 (calls_keep_ids_unique _ A)).
Defined.

(** X25. The window of [is_near_expiration]: a product with a datetime as
    expiration date is near expiration for a threshold exactly when the
    date lies at least one full day and less than threshold + 1 days after
    the clock reading. *)
Theorem near_expiration_window (now : datetime) (p : Product)
    (e : datetime) (threshold : Z) :
  expiration_date p = Some e ->
  (is_near_expiration now p threshold = true <->
   US_PER_DAY <= instant e - instant now < (threshold + 1) * US_PER_DAY).
Proof.
  intros He. unfold is_near_expiration.
  rewrite (days_until_expiration_some now p e He).
  rewrite andb_true_iff, Z.ltb_lt, Z.leb_le. unfold US_PER_DAY.
  split; intros H; Z.div_mod_to_equations; nia.
Qed.

Lemma near_expiration_window_witness :
  is_near_expiration noon expires_in_ten_days 10 = true
  /\ is_near_expiration noon expires_in_ten_days 9 = false.
Proof.
  split.
  - apply (near_expiration_window noon expires_in_ten_days
             (mkDatetime 2024 6 25 12 0 0 0) 10 eq_refl).
    split; [apply Z.leb_le | apply Z.ltb_lt]; reflexivity.
  - apply not_true_is_false. intros T.
    apply (near_expiration_window noon expires_in_ten_days
             (mkDatetime 2024 6 25 12 0 0 0) 9 eq_refl) in T.
    destruct T as [_ T]. apply Z.ltb_lt in T. discriminate T.
Defined.
